(** * Kiro agents: a shallow embedding of [beast_ai_dev_agent]

    The development follows the Python package file by file:
    - [common/models.py]: the records [KiroRequest], [KiroResponse],
      [KiroMetrics], the base class [KiroAgentInterface] and
      [KiroAgentFactory];
    - [cloudrun/agent.py]: [CloudRunKiroAgent];
    - [gke/agent.py]: [GKEKiroAgent], a subclass of [CloudRunKiroAgent];
    - [cloud_functions/agent.py]: [CloudFunctionsKiroAgent].

    Python objects are mutable and every statement may raise, so methods are
    computations in a state-and-exception monad in which the state survives
    a raised exception, as it does in Python. *)

From Stdlib Require Import String Ascii ZArith QArith List Bool Lia.
From Stdlib Require Import DecimalString.
Import ListNotations.

Local Open Scope string_scope.
Local Open Scope Z_scope.

Set Warnings "-register-all".

(** ** Python values *)

(** The values a JSON body or a payload dictionary is made of.  A [dict]
    keeps its items in insertion order, hence an association list.  A Python
    float is represented by the rational it denotes: the rounding of float
    arithmetic is not modelled. *)
Inductive value : Type :=
| VNone : value
| VBool : bool -> value
| VInt : Z -> value
| VFloat : Q -> value
| VStr : string -> value
| VList : list value -> value
| VDict : list (string * value) -> value.

Definition dict : Type := list (string * value).

(** [d.get(k)] on a dictionary. *)
Fixpoint dict_get {A : Type} (k : string) (d : list (string * A)) : option A :=
  match d with
  | [] => None
  | (k', v) :: d' => if String.eqb k k' then Some v else dict_get k d'
  end.

(** Truth value of a dictionary: [not d] holds exactly for the empty one. *)
Definition truthy {A : Type} (d : list A) : bool :=
  match d with
  | [] => false
  | _ :: _ => true
  end.

(** [x in l] for a list of strings. *)
Fixpoint str_in (x : string) (l : list string) : bool :=
  match l with
  | [] => false
  | y :: l' => String.eqb x y || str_in x l'
  end.

(** [str.lower()] on the ASCII letters; no other character lowers to an
    ASCII letter of the word compared against below. *)
Definition lower_ascii (c : ascii) : ascii :=
  let n := nat_of_ascii c in
  if (Nat.leb 65 n && Nat.leb n 90)%bool then ascii_of_nat (n + 32) else c.

Fixpoint lower (s : string) : string :=
  match s with
  | EmptyString => EmptyString
  | String c s' => String (lower_ascii c) (lower s')
  end.

(** [s[:n]] *)
Fixpoint str_take (n : nat) (s : string) : string :=
  match n, s with
  | S n', String c s' => String c (str_take n' s')
  | _, _ => EmptyString
  end.

(** [str(n)] for a natural number. *)
Definition str_of_nat (n : nat) : string :=
  NilEmpty.string_of_uint (Nat.to_uint n).

(** [str(z)] for an integer. *)
Definition str_of_Z (z : Z) : string :=
  NilEmpty.string_of_int (Z.to_int z).

(** [sum(l)] for a list of floats: it starts from 0 and adds from the left. *)
Definition py_sum (l : list Q) : Q := fold_left Qplus l (0 # 1).

(** ** Exceptions and the method monad *)

(** An instance of (a subclass of) [Exception]: its class name and [str(e)].
    These are the exceptions an [except Exception] clause catches. *)
Record PyException : Type := mkExc {
  exc_class : string;
  exc_str : string
}.

Definition ValueError (msg : string) : PyException := mkExc "ValueError" msg.
Definition TypeError (msg : string) : PyException := mkExc "TypeError" msg.

Inductive result (A : Type) : Type :=
| Ok : A -> result A
| Raise : PyException -> result A.
Arguments Ok {A} _.
Arguments Raise {A} _.

Definition is_ok {A : Type} (r : result A) : bool :=
  match r with
  | Ok _ => true
  | Raise _ => false
  end.

(** A computation over a store [S]: it returns or raises, and in both cases
    leaves a store behind. *)
Definition M (S A : Type) : Type := S -> result A * S.

Definition ret {S A : Type} (a : A) : M S A := fun s => (Ok a, s).

Definition bind {S A B : Type} (m : M S A) (f : A -> M S B) : M S B :=
  fun s =>
    match m s with
    | (Ok a, s') => f a s'
    | (Raise e, s') => (Raise e, s')
    end.

Definition raise {S A : Type} (e : PyException) : M S A :=
  fun s => (Raise e, s).

(** [try: body  except Exception as e: handler e] *)
Definition try_except {S A : Type} (body : M S A)
    (handler : PyException -> M S A) : M S A :=
  fun s =>
    match body s with
    | (Ok a, s') => (Ok a, s')
    | (Raise e, s') => handler e s'
    end.

(** Lifting of a pure, possibly raising, call. *)
Definition lift {S A : Type} (r : result A) : M S A := fun s => (r, s).

Declare Scope py_scope.
Delimit Scope py_scope with py.
Notation "x <- c1 ;; c2" := (bind c1 (fun x => c2))
  (at level 61, c1 at next level, right associativity) : py_scope.
Notation "c1 ;; c2" := (bind c1 (fun _ => c2))
  (at level 61, right associativity) : py_scope.
Local Open Scope py_scope.

(** ** The process environment *)

(** What the program reads from outside itself.  The clock and the uuid
    generator are sequences of answers, consumed in call order; the
    remaining fields are the library functions whose result the program
    only stores or prints.  [str] of a payload raises on some payloads
    (RecursionError on deep nesting, ValueError on an integer of more than
    4300 digits), and so does the rendering of a JSON body (ValueError on a
    float that JSON cannot express, UnicodeEncodeError on a lone
    surrogate). *)
Record Env : Type := mkEnv {
  utcnow_at : nat -> Z;              (* datetime.utcnow(), in microseconds *)
  uuid4_hex_at : nat -> string;      (* uuid.uuid4().hex *)
  environ : string -> option string; (* os.environ *)
  psutil : option (Z * Q);           (* rss in bytes and cpu percent; None
                                        when the module cannot be imported *)
  isoformat : Z -> string;           (* datetime.isoformat() *)
  float_str : Q -> string;           (* str(x) for a float x *)
  str_len : dict -> result Z;        (* len(str(d)) *)
  py_int : string -> result Z;       (* int(s) *)
  json_dumps : dict -> result string (* the body JSONResponse renders *)
}.

Inductive LogLevel : Type := INFO | WARNING | ERROR.

Record LogRecord : Type := mkLog {
  log_name : string;
  log_level : LogLevel;
  log_msg : string
}.

(** The part of the outside world that a run changes. *)
Record World : Type := mkWorld {
  clock_reads : nat;
  uuid_draws : nat;
  log : list LogRecord
}.

Definition World0 : World := mkWorld 0 0 [].

(** ** The data model of [common/models.py] *)

(** An object as a method sees it through the two attributes it reads:
    the attribute, or the exception of the read ([AttributeError] on an
    object without it, such as [None]). *)
Record RequestObject : Type := mkRequestObject {
  attr_data : result dict;
  attr_method : result string
}.

Module KiroRequest.
Record t : Type := mk {
  data : dict;
  headers : list (string * string);
  method : string;
  path : string;
  query_params : list (string * string);
  timestamp : string
}.

(** On an instance both attributes are there. *)
Definition as_object (r : t) : RequestObject :=
  mkRequestObject (Ok (data r)) (Ok (method r)).
End KiroRequest.

Module KiroResponse.
Record t : Type := mk {
  status_code : Z;
  data : dict;
  headers : list (string * string);
  timestamp : string
}.
End KiroResponse.

Module KiroMetrics.
Record t : Type := mk {
  platform : string;
  instance_id : string;
  timestamp : string;
  request_count : Z;
  error_count : Z;
  avg_response_time : Q;
  memory_usage : Q;
  cpu_usage : Q
}.

Definition given {A : Type} (o : option A) : bool :=
  match o with
  | Some _ => true
  | None => false
  end.

(** The names of the fields, in declaration order, paired with whether
    the call supplies them. *)
Definition missing (supplied : list (string * bool)) : list string :=
  map fst (filter (fun p => negb (snd p)) supplied).

Definition quote (s : string) : string := "'" ++ s ++ "'".

(** The way CPython lists the missing argument names. *)
Fixpoint names_tail (l : list string) : string :=
  match l with
  | [] => ""
  | [x] => ", and " ++ quote x
  | x :: l' => ", " ++ quote x ++ names_tail l'
  end.

Definition names (l : list string) : string :=
  match l with
  | [] => ""
  | [x] => quote x
  | [x; y] => quote x ++ " and " ++ quote y
  | x :: l' => quote x ++ names_tail l'
  end.

Definition missing_msg (l : list string) : string :=
  "KiroMetrics.__init__() missing " ++ str_of_nat (length l)
  ++ " required positional argument"
  ++ (if Nat.eqb (length l) 1 then "" else "s") ++ ": " ++ names l.

(** The [__init__] that [@dataclass] generates.  No field has a default,
    so all eight are required; a call by keyword that leaves one out
    raises [TypeError].  An argument that the call does not pass is
    [None] here. *)
Definition __init__ (platform instance_id timestamp : option string)
    (request_count error_count : option Z)
    (avg_response_time memory_usage cpu_usage : option Q) : result t :=
  match platform, instance_id, timestamp, request_count, error_count,
        avg_response_time, memory_usage, cpu_usage with
  | Some p, Some i, Some ts, Some rc, Some ec, Some avg, Some mem, Some cpu =>
      Ok (mk p i ts rc ec avg mem cpu)
  | _, _, _, _, _, _, _, _ =>
      Raise (TypeError (missing_msg (missing
        [("platform", given platform);
         ("instance_id", given instance_id);
         ("timestamp", given timestamp);
         ("request_count", given request_count);
         ("error_count", given error_count);
         ("avg_response_time", given avg_response_time);
         ("memory_usage", given memory_usage);
         ("cpu_usage", given cpu_usage)])))
  end.
End KiroMetrics.

(** ** Agent objects *)

(** The class of an agent object decides which method bodies run. *)
Inductive AgentClass : Type := CloudRun | GKE | CloudFunctions.

(** The attributes of an agent.  [logger] is the name of [self.logger];
    [port] exists on [CloudRunKiroAgent] and its subclass only. *)
Record Agent : Type := mkAgent {
  cls : AgentClass;
  platform : string;
  request_count : Z;
  error_count : Z;
  response_times : list Q;
  logger : string;
  port : option Z
}.

Definition set_platform (p : string) (a : Agent) : Agent :=
  mkAgent (cls a) p (request_count a) (error_count a) (response_times a)
          (logger a) (port a).

Definition set_request_count (n : Z) (a : Agent) : Agent :=
  mkAgent (cls a) (platform a) n (error_count a) (response_times a)
          (logger a) (port a).

Definition set_error_count (n : Z) (a : Agent) : Agent :=
  mkAgent (cls a) (platform a) (request_count a) n (response_times a)
          (logger a) (port a).

Definition set_response_times (l : list Q) (a : Agent) : Agent :=
  mkAgent (cls a) (platform a) (request_count a) (error_count a) l
          (logger a) (port a).

Definition set_port (p : Z) (a : Agent) : Agent :=
  mkAgent (cls a) (platform a) (request_count a) (error_count a)
          (response_times a) (logger a) (Some p).

(** A method runs on the world and on [self]. *)
Definition Heap : Type := (World * Agent)%type.

Definition self : M Heap Agent := fun h => (Ok (snd h), h).

Definition update_self (f : Agent -> Agent) : M Heap unit :=
  fun h => (Ok tt, (fst h, f (snd h))).

Definition in_world {A : Type} (m : M World A) : M Heap A :=
  fun h => let '(r, w) := m (fst h) in (r, (w, snd h)).

(** [logging.getLogger(name).log(level, msg)] *)
Definition log_to (name : string) (lvl : LogLevel) (msg : string) : M World unit :=
  fun w => (Ok tt, mkWorld (clock_reads w) (uuid_draws w)
                           (log w ++ [mkLog name lvl msg])).

Section Clock.
Context (env : Env).

(** [datetime.utcnow()] *)
Definition utcnow : M World Z :=
  fun w => (Ok (utcnow_at env (clock_reads w)),
            mkWorld (S (clock_reads w)) (uuid_draws w) (log w)).

(** [uuid.uuid4().hex] *)
Definition uuid4_hex : M World string :=
  fun w => (Ok (uuid4_hex_at env (uuid_draws w)),
            mkWorld (clock_reads w) (S (uuid_draws w)) (log w)).

(** [os.getenv(key, default)] *)
Definition getenv (key default : string) : string :=
  match environ env key with
  | Some v => v
  | None => default
  end.
End Clock.

(** [timedelta.total_seconds()] of a difference in microseconds. *)
Definition total_seconds (us : Z) : Q := Qmake us 1000000.

(** ** [class KiroAgentInterface(ABC)] *)

Module KiroAgentInterface.

Definition module_name : string := "beast_ai_dev_agent.common.models".

(** [__init__(self, platform)], run on an object of class [c]. *)
Definition __init__ (c : AgentClass) (platform : string) : Agent :=
  mkAgent c platform 0 0 [] (module_name ++ "." ++ platform) None.

(** The placeholder body of [_perform_analysis]. *)
Definition _perform_analysis (data : dict) : result dict :=
  Ok [("status", VStr "analyzed");
      ("confidence", VFloat (95 # 100));
      ("categories", VList [VStr "example_category"]);
      ("insights", VList [VStr "Example insight from analysis"])].

Section Methods.
Context (env : Env).
(** The analysis routine that [self._perform_analysis] resolves to: the
    placeholder above unless a subclass supplies its own. *)
Context (perform_analysis : dict -> result dict).

Definition self_log (lvl : LogLevel) (msg : string) : M Heap unit :=
  a <- self ;; in_world (log_to (logger a) lvl msg).

Definition _generate_analysis_id : M Heap string :=
  a <- self ;;
  h <- in_world (uuid4_hex env) ;;
  ret ("kiro_" ++ platform a ++ "_" ++ str_take 8 h).

Definition _get_processing_time : M Heap Q := ret (1 # 10).

Definition analyze_data (data : dict) : M Heap dict :=
  try_except
    (a <- self ;;
     self_log INFO ("Processing analysis request on " ++ platform a) ;;
     analysis_id <- _generate_analysis_id ;;
     a <- self ;;
     now <- in_world (utcnow env) ;;
     analysis_result <- lift (perform_analysis data) ;;
     processing_time <- _get_processing_time ;;
     data_size <- lift (str_len env data) ;;
     let result :=
       [("analysis_id", VStr analysis_id);
        ("platform", VStr (platform a));
        ("timestamp", VStr (isoformat env now));
        ("input_data", VDict data);
        ("analysis_result", VDict analysis_result);
        ("metadata", VDict [("processing_time", VFloat processing_time);
                            ("data_size", VInt data_size)])] in
     a <- self ;;
     self_log INFO ("Analysis completed successfully on " ++ platform a) ;;
     ret result)
    (fun e =>
       a <- self ;;
       self_log ERROR ("Analysis failed on " ++ platform a ++ ": " ++ exc_str e) ;;
       raise e).

(** The body of [validate_request], on whatever object it is handed:
    Python does not check the annotation.  Each read of [request.data] and of
    [request.method] either gives the attribute or raises, inside the
    [try]. *)
Definition validate_request_object (request : RequestObject) : M Heap bool :=
  try_except
    (data <- lift (attr_data request) ;;
     if negb (truthy data) then
       self_log WARNING "Empty request data" ;;
       ret false
     else
       method <- lift (attr_method request) ;;
       if negb (str_in method ["GET"; "POST"; "PUT"; "DELETE"]) then
         method <- lift (attr_method request) ;;
         self_log WARNING ("Invalid method: " ++ method) ;;
         ret false
       else ret true)
    (fun e =>
       self_log ERROR ("Request validation failed: " ++ exc_str e) ;;
       ret false).

(** [validate_request] on a [KiroRequest]. *)
Definition validate_request (request : KiroRequest.t) : M Heap bool :=
  validate_request_object (KiroRequest.as_object request).

Definition create_error_response (error_message : string)
    (status_code : option Z) : M Heap KiroResponse.t :=
  let status_code := match status_code with Some c => c | None => 500 end in
  a <- self ;;
  update_self (set_error_count (error_count a + 1)) ;;
  a <- self ;;
  t1 <- in_world (utcnow env) ;;
  t2 <- in_world (utcnow env) ;;
  ret (KiroResponse.mk status_code
         [("status", VStr "error");
          ("message", VStr error_message);
          ("platform", VStr (platform a));
          ("timestamp", VStr (isoformat env t1))]
         [("Content-Type", "application/json")]
         (isoformat env t2)).

Definition create_success_response (data : dict)
    (status_code : option Z) : M Heap KiroResponse.t :=
  let status_code := match status_code with Some c => c | None => 200 end in
  a <- self ;;
  update_self (set_request_count (request_count a + 1)) ;;
  a <- self ;;
  t1 <- in_world (utcnow env) ;;
  t2 <- in_world (utcnow env) ;;
  ret (KiroResponse.mk status_code
         [("status", VStr "success");
          ("platform", VStr (platform a));
          ("timestamp", VStr (isoformat env t1));
          ("result", VDict data)]
         [("Content-Type", "application/json")]
         (isoformat env t2)).

Definition _get_platform_capabilities : M Heap (list string) :=
  a <- self ;;
  if String.eqb (platform a) "gke" then
    ret ["persistent_volumes"; "stateful_sets"; "node_affinity";
         "custom_networking"; "advanced_scaling"]
  else if String.eqb (platform a) "cloudrun" then
    ret ["auto_scaling"; "pay_per_use"; "serverless"; "http_triggers";
         "event_triggers"]
  else ret ["basic_http"].

Definition _get_platform_constraints : M Heap (list string) :=
  a <- self ;;
  if String.eqb (platform a) "gke" then
    ret ["stateless_only"; "no_persistent_volumes"; "no_stateful_sets";
         "no_node_affinity"]
  else if String.eqb (platform a) "cloudrun" then
    ret ["15_minute_timeout"; "http_only"; "stateless_only";
         "ephemeral_storage"]
  else ret ["basic_constraints"].
Definition get_platform_info : M Heap dict :=
  a <- self ;;
  capabilities <- _get_platform_capabilities ;;
  constraints <- _get_platform_constraints ;;
  ret [("platform", VStr (platform a));
       ("version", VStr "1.0.0");
       ("capabilities", VList (map VStr capabilities));
       ("constraints", VList (map VStr constraints))].
End Methods.
End KiroAgentInterface.

(** ** [class CloudRunKiroAgent(KiroAgentInterface)] *)

(** What [_analyze_handler] reads from the FastAPI request, and the
    [JSONResponse] it answers with. *)
Record HttpRequest : Type := mkHttpRequest {
  json : result dict;                      (* await request.json() *)
  http_headers : list (string * string);
  http_method : string;
  url_path : string;
  http_query_params : list (string * string)
}.

Record JSONResponse : Type := mkJSONResponse {
  content : dict;
  status_code : Z
}.

(** [JSONResponse(content=..., status_code=...)]: the constructor renders
    the body, and raises what the rendering raises. *)
Definition JSONResponse_new (env : Env) (content : dict) (status_code : Z)
    : result JSONResponse :=
  match json_dumps env content with
  | Ok _ => Ok (mkJSONResponse content status_code)
  | Raise e => Raise e
  end.

Module CloudRunKiroAgent.

Definition module_name : string := "beast_ai_dev_agent.cloudrun.agent".

Definition logger_log (lvl : LogLevel) (msg : string) : M Heap unit :=
  in_world (log_to module_name lvl msg).

Section Methods.
Context (env : Env).
Context (perform_analysis : dict -> result dict).

(** [__init__(self)], run on an object of class [c].  The FastAPI
    application and its routes are not part of the modelled state. *)
Definition __init__ (c : AgentClass) : M World Agent :=
  let a := KiroAgentInterface.__init__ c "cloudrun" in
  port <- lift (py_int env (getenv env "PORT" "8080")) ;;
  log_to module_name INFO
    ("CloudRunKiroAgent initialized on port " ++ str_of_Z port) ;;
  ret (set_port port a).

Definition process_request (request : KiroRequest.t) : M Heap KiroResponse.t :=
  try_except
    (a <- self ;;
     update_self (set_request_count (request_count a + 1)) ;;
     start_time <- in_world (utcnow env) ;;
     result <- KiroAgentInterface.analyze_data env perform_analysis
                 (KiroRequest.data request) ;;
     end_time <- in_world (utcnow env) ;;
     let response_time := total_seconds (end_time - start_time) in
     a <- self ;;
     update_self (set_response_times (response_times a ++ [response_time])) ;;
     let response :=
       KiroResponse.mk 200 result
         [("X-Platform", "cloudrun");
          ("X-Response-Time", float_str env response_time)]
         (isoformat env end_time) in
     logger_log INFO ("Request processed successfully in "
                      ++ float_str env response_time ++ "s") ;;
     ret response)
    (fun e =>
       a <- self ;;
       update_self (set_error_count (error_count a + 1)) ;;
       logger_log ERROR ("Error processing request: " ++ exc_str e) ;;
       now <- in_world (utcnow env) ;;
       ret (KiroResponse.mk 500
              [("error", VStr (exc_str e)); ("platform", VStr "cloudrun")]
              [("X-Platform", "cloudrun")]
              (isoformat env now))).

Definition _get_uptime : M Heap Q := ret (0 # 1).

Definition _check_redis : M Heap string :=
  let beast_mode_enabled :=
    String.eqb (lower (getenv env "BEAST_MODE_ENABLED" "false")) "true" in
  if negb beast_mode_enabled then ret "disabled"
  else try_except (ret "healthy") (fun _ => ret "unhealthy").

Definition _check_disk : M Heap string := ret "healthy".

Definition health_check : M Heap dict :=
  now <- in_world (utcnow env) ;;
  uptime <- _get_uptime ;;
  a <- self ;;
  redis <- _check_redis ;;
  disk <- _check_disk ;;
  ret [("status", VStr "healthy");
       ("platform", VStr "cloudrun");
       ("timestamp", VStr (isoformat env now));
       ("uptime", VFloat uptime);
       ("request_count", VInt (request_count a));
       ("error_count", VInt (error_count a));
       ("checks", VDict [("redis", VStr redis); ("disk", VStr disk)])].

(** [except ImportError] is the only handler: the import of [psutil]
    either fails or gives the two readings. *)
Definition _get_memory_usage : M Heap Q :=
  match psutil env with
  | Some (rss, _) => ret (inject_Z rss / (1024 # 1) / (1024 # 1))%Q
  | None => ret (0 # 1)
  end.

Definition _get_cpu_usage : M Heap Q :=
  match psutil env with
  | Some (_, cpu) => ret cpu
  | None => ret (0 # 1)
  end.

Definition get_metrics : M Heap KiroMetrics.t :=
  a <- self ;;
  let avg_response_time :=
    if truthy (response_times a)
    then (py_sum (response_times a)
          / inject_Z (Z.of_nat (length (response_times a))))%Q
    else 0 # 1 in
  memory_usage <- _get_memory_usage ;;
  cpu_usage <- _get_cpu_usage ;;
  lift (KiroMetrics.__init__ (Some "cloudrun") None None
          (Some (request_count a)) (Some (error_count a))
          (Some avg_response_time) (Some memory_usage) (Some cpu_usage)).

Definition _health_check_handler : M Heap JSONResponse :=
  health_data <- health_check ;;
  lift (JSONResponse_new env health_data 200).

Definition _analyze_handler (request : HttpRequest) : M Heap JSONResponse :=
  try_except
    (body <- lift (json request) ;;
     now <- in_world (utcnow env) ;;
     let kiro_request :=
       KiroRequest.mk body (http_headers request) (http_method request)
         (url_path request) (http_query_params request)
         (isoformat env now) in
     kiro_response <- process_request kiro_request ;;
     lift (JSONResponse_new env (KiroResponse.data kiro_response)
                            (KiroResponse.status_code kiro_response)))
    (fun e =>
       logger_log ERROR ("Error processing analyze request: " ++ exc_str e) ;;
       lift (JSONResponse_new env
               [("error", VStr (exc_str e)); ("platform", VStr "cloudrun")]
               500)).
(** [JSONResponse(content=...)] answers with status 200 when none is given;
    the handler has no [try]. *)
Definition _metrics_handler : M Heap JSONResponse :=
  metrics <- get_metrics ;;
  lift (JSONResponse_new env
         [("platform", VStr (KiroMetrics.platform metrics));
          ("request_count", VInt (KiroMetrics.request_count metrics));
          ("error_count", VInt (KiroMetrics.error_count metrics));
          ("avg_response_time", VFloat (KiroMetrics.avg_response_time metrics));
          ("memory_usage", VFloat (KiroMetrics.memory_usage metrics));
          ("cpu_usage", VFloat (KiroMetrics.cpu_usage metrics))]
         200).
End Methods.
End CloudRunKiroAgent.

(** ** [class GKEKiroAgent(CloudRunKiroAgent)] *)

Module GKEKiroAgent.

Definition module_name : string := "beast_ai_dev_agent.gke.agent".

(** Every method but [__init__] is inherited from [CloudRunKiroAgent]. *)
Definition __init__ (env : Env) : M World Agent :=
  a <- CloudRunKiroAgent.__init__ env GKE ;;
  let a := set_platform "gke" a in
  log_to module_name INFO "GKEKiroAgent initialized with Kubernetes awareness" ;;
  ret a.
End GKEKiroAgent.

(** ** [class CloudFunctionsKiroAgent(KiroAgentInterface)] *)

Module CloudFunctionsKiroAgent.

Definition module_name : string := "beast_ai_dev_agent.cloud_functions.agent".

Definition logger_log (lvl : LogLevel) (msg : string) : M Heap unit :=
  in_world (log_to module_name lvl msg).

Definition __init__ : M World Agent :=
  let a := KiroAgentInterface.__init__ CloudFunctions "cloud_functions" in
  log_to module_name INFO "CloudFunctionsKiroAgent initialized (serverless)" ;;
  ret a.

Section Methods.
Context (env : Env).
Context (perform_analysis : dict -> result dict).

Definition process_request (request : KiroRequest.t) : M Heap KiroResponse.t :=
  try_except
    (a <- self ;;
     update_self (set_request_count (request_count a + 1)) ;;
     start_time <- in_world (utcnow env) ;;
     result <- KiroAgentInterface.analyze_data env perform_analysis
                 (KiroRequest.data request) ;;
     t1 <- in_world (utcnow env) ;;
     let response_time := total_seconds (t1 - start_time) in
     a <- self ;;
     update_self (set_response_times (response_times a ++ [response_time])) ;;
     t2 <- in_world (utcnow env) ;;
     ret (KiroResponse.mk 200 result
            [("X-Platform", "cloud_functions")]
            (isoformat env t2)))
    (fun e =>
       a <- self ;;
       update_self (set_error_count (error_count a + 1)) ;;
       logger_log ERROR ("Error in Cloud Function: " ++ exc_str e) ;;
       now <- in_world (utcnow env) ;;
       ret (KiroResponse.mk 500
              [("error", VStr (exc_str e))]
              [("X-Platform", "cloud_functions")]
              (isoformat env now))).

Definition health_check : M Heap dict :=
  a <- self ;;
  ret [("status", VStr "healthy");
       ("platform", VStr "cloud_functions");
       ("request_count", VInt (request_count a))].

Definition get_metrics : M Heap KiroMetrics.t :=
  a <- self ;;
  lift (KiroMetrics.__init__ (Some "cloud_functions") None None
          (Some (request_count a)) (Some (error_count a))
          (Some (0 # 1)) (Some (0 # 1)) (Some (0 # 1))).
End Methods.
End CloudFunctionsKiroAgent.

(** ** Method resolution *)

(** [agent.process_request(request)] and the other two abstract methods run
    the body that the class of [agent] defines or inherits. *)
Section Dispatch.
Context (env : Env).
Context (perform_analysis : dict -> result dict).

Definition process_request (request : KiroRequest.t) : M Heap KiroResponse.t :=
  a <- self ;;
  match cls a with
  | CloudRun | GKE => CloudRunKiroAgent.process_request env perform_analysis request
  | CloudFunctions => CloudFunctionsKiroAgent.process_request env perform_analysis request
  end.

Definition health_check : M Heap dict :=
  a <- self ;;
  match cls a with
  | CloudRun | GKE => CloudRunKiroAgent.health_check env
  | CloudFunctions => CloudFunctionsKiroAgent.health_check
  end.

Definition get_metrics : M Heap KiroMetrics.t :=
  a <- self ;;
  match cls a with
  | CloudRun | GKE => CloudRunKiroAgent.get_metrics env
  | CloudFunctions => CloudFunctionsKiroAgent.get_metrics
  end.

(** Requests handled one after the other by the same agent. *)
Fixpoint process_requests (requests : list KiroRequest.t)
    : M Heap (list KiroResponse.t) :=
  match requests with
  | [] => ret []
  | r :: rest =>
      resp <- process_request r ;;
      resps <- process_requests rest ;;
      ret (resp :: resps)
  end.
End Dispatch.

(** ** [class KiroAgentFactory] *)

Module KiroAgentFactory.

Definition create_agent (env : Env) (platform : string) : M World Agent :=
  if String.eqb platform "gke" then GKEKiroAgent.__init__ env
  else if String.eqb platform "cloudrun" then CloudRunKiroAgent.__init__ env CloudRun
  else raise (ValueError ("Unknown platform: " ++ platform)).

Definition get_available_platforms : list string := ["gke"; "cloudrun"].

Definition validate_platform (platform : string) : bool :=
  str_in platform get_available_platforms.
End KiroAgentFactory.

(** ** [validate_stateless_constraints] of [common/models.py] *)

Definition models_log (lvl : LogLevel) (msg : string) : M World unit :=
  log_to KiroAgentInterface.module_name lvl msg.

(** The result of [subprocess.run(..., capture_output=True, text=True)]. *)
Record CompletedProcess : Type := mkCompletedProcess {
  returncode : Z;
  stdout : string
}.

(** The commands that [validate_stateless_constraints] runs, as the answers
    of the system to each argument list, and [str.strip]. *)
Record Shell : Type := mkShell {
  subprocess_run : list string -> result CompletedProcess;
  strip : string -> string
}.

Definition kubectl_get (kind : string) : list string :=
  ["kubectl"; "get"; kind; "-n"; "kiro-agents"].

(** [result.returncode == 0 and result.stdout.strip()], as a truth value. *)
Definition lists_resources (sh : Shell) (r : CompletedProcess) : bool :=
  (returncode r =? 0) && negb (String.eqb (strip sh (stdout r)) "").

Definition validate_stateless_constraints (sh : Shell) (platform : string)
    : M World bool :=
  if String.eqb platform "gke" then
    try_except
      (result <- lift (subprocess_run sh (kubectl_get "pvc")) ;;
       if lists_resources sh result then
         models_log ERROR "❌ FORBIDDEN: PersistentVolumeClaims found" ;;
         ret false
       else
         result <- lift (subprocess_run sh (kubectl_get "statefulset")) ;;
         if lists_resources sh result then
           models_log ERROR "❌ FORBIDDEN: StatefulSets found" ;;
           ret false
         else
           models_log INFO "✅ GKE stateless constraints validated" ;;
           ret true)
      (fun e =>
         models_log ERROR ("Failed to validate GKE constraints: " ++ exc_str e) ;;
         ret false)
  else if String.eqb platform "cloudrun" then
    models_log INFO "✅ Cloud Run stateless constraints validated" ;;
    ret true
  else
    models_log ERROR ("Unknown platform: " ++ platform) ;;
    ret false.

(** ** A sample environment and sample inputs *)

(** Whether a dictionary holds, at its top, an integer of 14286 bits or
    more, which has more than 4300 digits: [str] refuses to print such an
    integer. *)
Definition has_huge_int (d : dict) : bool :=
  existsb (fun kv => match snd kv with
                     | VInt z => 14285 <=? Z.log2 (Z.abs z)
                     | _ => false
                     end) d.

(** [2 ** 16610], an integer of 5001 digits. *)
Definition huge_int : Z := Z.shiftl 1 16610.

(** A clock that advances by a quarter of a second per reading, no
    environment variable set, no [psutil]; integers and floats are printed
    in a simplified way, and so are the payloads that [str] and the JSON
    rendering accept. *)
Definition sample_env : Env :=
  mkEnv (fun n => 250000 * Z.of_nat n)
        (fun _ => "9f1c2ab47d3e4f60a1b2c3d4e5f60718")
        (fun _ => None)
        None
        (fun t => "T+" ++ str_of_Z t)
        (fun q => str_of_Z (Qnum q) ++ "/" ++ str_of_Z (Z.pos (Qden q)))
        (fun d => if has_huge_int d
                  then Raise (ValueError
                    "Exceeds the limit (4300 digits) for integer string conversion")
                  else Ok (Z.of_nat (length d)))
        (fun s => if String.eqb s "8080" then Ok 8080
                  else Raise (ValueError "invalid literal for int() with base 10"))
        (fun d => match dict_get "nan" d with
                  | Some _ => Raise (ValueError
                      "Out of range float values are not JSON compliant")
                  | None => Ok "{...}"
                  end).

(** An analysis routine that rejects payloads carrying the key ["bad"]. *)
Definition picky_analysis (data : dict) : result dict :=
  match dict_get "bad" data with
  | Some _ => Raise (mkExc "RuntimeError" "bad payload")
  | None => KiroAgentInterface._perform_analysis data
  end.

Definition sample_request (data : dict) (method : string) : KiroRequest.t :=
  KiroRequest.mk data [] method "/analyze" [] "T+0".

Definition good_request : KiroRequest.t := sample_request [("x", VInt 1)] "POST".
Definition bad_request : KiroRequest.t := sample_request [("bad", VNone)] "POST".
Definition empty_request : KiroRequest.t := sample_request [] "PATCH".
Definition huge_request : KiroRequest.t :=
  sample_request [("x", VInt huge_int)] "POST".

Definition fresh_cloudrun : Agent :=
  mkAgent CloudRun "cloudrun" 0 0 [] "beast_ai_dev_agent.common.models.cloudrun"
          (Some 8080).

Definition fresh_gke : Agent :=
  mkAgent GKE "gke" 0 0 [] "beast_ai_dev_agent.common.models.cloudrun"
          (Some 8080).

Definition fresh_cloud_functions : Agent :=
  mkAgent CloudFunctions "cloud_functions" 0 0 []
          "beast_ai_dev_agent.common.models.cloud_functions" None.

(** The methods [GET], [POST], [PUT], [DELETE] that [validate_request] lets
    through. *)
Definition http_methods : list string := ["GET"; "POST"; "PUT"; "DELETE"].

(** The records that a run appended to the log. *)
Definition logged (w w' : World) (entries : list LogRecord) : Prop :=
  log w' = (log w ++ entries)%list.

(** The two calls of the analysis step that may raise, in the order in
    which [analyze_data] makes them: the analysis routine, then
    [len(str(data))]. *)
Definition analysis_step (env : Env) (perform_analysis : dict -> result dict)
    (data : dict) : result (dict * Z) :=
  match perform_analysis data with
  | Ok r =>
      match str_len env data with
      | Ok n => Ok (r, n)
      | Raise e => Raise e
      end
  | Raise e => Raise e
  end.

(** Whether [analyze_data] returns on the data of a request, run in state
    [h]. *)
Definition analysis_returns (env : Env) (perform_analysis : dict -> result dict)
    (h : Heap) (r : KiroRequest.t) : bool :=
  is_ok (fst (KiroAgentInterface.analyze_data env perform_analysis
                (KiroRequest.data r) h)).

(** Number of requests of a list on which the analysis step returns, and
    on which it raises. *)
Definition analysed (env : Env) (perform_analysis : dict -> result dict)
    (h : Heap) (requests : list KiroRequest.t) : nat :=
  length (filter (analysis_returns env perform_analysis h) requests).

Definition failed (env : Env) (perform_analysis : dict -> result dict)
    (h : Heap) (requests : list KiroRequest.t) : nat :=
  length (filter (fun r => negb (analysis_returns env perform_analysis h r))
                 requests).

(** The identifier that [_generate_analysis_id] returns in world [w]. *)
Definition analysis_id_in (env : Env) (w : World) (a : Agent) : string :=
  "kiro_" ++ platform a ++ "_" ++ str_take 8 (uuid4_hex_at env (uuid_draws w)).

(** The header that the [process_request] of a class writes. *)
Definition x_platform (c : AgentClass) : string :=
  match c with
  | CloudRun | GKE => "cloudrun"
  | CloudFunctions => "cloud_functions"
  end.

(** The platform attribute that the constructor of each class leaves. *)
Definition class_platform (c : AgentClass) : string :=
  match c with
  | CloudRun => "cloudrun"
  | GKE => "gke"
  | CloudFunctions => "cloud_functions"
  end.

(** The sample that a successful call records: the third clock reading of
    the call minus the first, in seconds. *)
Definition sample_in (env : Env) (w : World) : Q :=
  total_seconds (utcnow_at env (S (S (clock_reads w))) - utcnow_at env (clock_reads w)).

(** The data of the response on the failure path of each class. *)
Definition error_payload (c : AgentClass) (e : PyException) : dict :=
  match c with
  | CloudRun | GKE => [("error", VStr (exc_str e)); ("platform", VStr "cloudrun")]
  | CloudFunctions => [("error", VStr (exc_str e))]
  end.

(** The verdict for "gke" in terms of the two listings. *)
Definition gke_clean (sh : Shell) : Prop :=
  exists r1 r2 : CompletedProcess,
    subprocess_run sh (kubectl_get "pvc") = Ok r1
    /\ lists_resources sh r1 = false
    /\ subprocess_run sh (kubectl_get "statefulset") = Ok r2
    /\ lists_resources sh r2 = false.

(** The status that [process_request] answers a request with. *)
Definition expected_status (env : Env) (perform_analysis : dict -> result dict)
    (h : Heap) (r : KiroRequest.t) : Z :=
  if analysis_returns env perform_analysis h r then 200 else 500.

(** The payload that [analyze_data] builds in world [w] around the result
    [r] of the analysis routine and the size [n]. *)
Definition analysis_payload (env : Env) (w : World) (a : Agent)
    (data r : dict) (n : Z) : dict :=
  [("analysis_id", VStr (analysis_id_in env w a));
   ("platform", VStr (platform a));
   ("timestamp", VStr (isoformat env (utcnow_at env (clock_reads w))));
   ("input_data", VDict data);
   ("analysis_result", VDict r);
   ("metadata", VDict [("processing_time", VFloat (1 # 10));
                       ("data_size", VInt n)])].

(** The world in which [_analyze_handler], entered in world [w], has
    [analyze_data] build its payload: the handler and [process_request] have
    each read the clock once. *)
Definition analysis_world (w : World) : World :=
  mkWorld (S (S (clock_reads w))) (uuid_draws w) (log w).

(** * Properties *)

Ltac split_conj := repeat match goal with |- _ /\ _ => split end.

(** Unfolding of the method bodies and of the monad. *)
Ltac unfold_methods :=
  unfold process_request, health_check, get_metrics,
    CloudRunKiroAgent.process_request, CloudFunctionsKiroAgent.process_request,
    CloudRunKiroAgent.health_check, CloudFunctionsKiroAgent.health_check,
    CloudRunKiroAgent.get_metrics, CloudFunctionsKiroAgent.get_metrics,
    CloudRunKiroAgent._analyze_handler,
    CloudRunKiroAgent._get_uptime, CloudRunKiroAgent._check_disk,
    CloudRunKiroAgent._get_memory_usage, CloudRunKiroAgent._get_cpu_usage,
    CloudRunKiroAgent.logger_log, CloudFunctionsKiroAgent.logger_log,
    KiroAgentInterface.analyze_data, KiroAgentInterface._generate_analysis_id,
    KiroAgentInterface._get_processing_time, KiroAgentInterface.self_log,
    KiroAgentInterface.create_error_response,
    KiroAgentInterface.create_success_response,
    try_except, bind, ret, raise, lift, self, update_self, in_world,
    utcnow, uuid4_hex, log_to.

(** ** Basic facts *)

Lemma str_in_In (x : string) (l : list string) : str_in x l = true <-> In x l.
Proof.
  induction l as [|y l IH]; simpl.
  - split; [discriminate | contradiction].
  - rewrite orb_true_iff, IH, String.eqb_eq. split.
    + intros [H | H]; [left; symmetry; exact H | right; exact H].
    + intros [H | H]; [left; symmetry; exact H | right; exact H].
Qed.

Lemma str_in_not_In (x : string) (l : list string) : str_in x l = false <-> ~ In x l.
Proof.
  rewrite <- str_in_In. destruct (str_in x l); split; intros H;
    try reflexivity; try discriminate; try (intros H'; discriminate).
  exfalso. apply H. reflexivity.
Qed.

Lemma constructors_build_fresh_agents :
  fst (CloudRunKiroAgent.__init__ sample_env CloudRun World0) = Ok fresh_cloudrun
  /\ fst (GKEKiroAgent.__init__ sample_env World0) = Ok fresh_gke
  /\ fst (CloudFunctionsKiroAgent.__init__ World0) = Ok fresh_cloud_functions.
Proof. repeat split; vm_compute; reflexivity. Qed.

(** ** Request validation *)

(** [validate_request] on a request is decided by its data and method. *)
Lemma validate_request_verdict (req : KiroRequest.t) (w : World) (a : Agent) :
  exists w' : World,
    KiroAgentInterface.validate_request req (w, a)
    = (Ok (truthy (KiroRequest.data req)
           && str_in (KiroRequest.method req) http_methods), (w', a)).
Proof.
  unfold KiroAgentInterface.validate_request,
    KiroAgentInterface.validate_request_object, KiroRequest.as_object,
    http_methods, try_except, bind, lift.
  cbn [attr_data attr_method].
  destruct (KiroRequest.data req) as [|kv d];
    [| destruct (str_in (KiroRequest.method req) ["GET"; "POST"; "PUT"; "DELETE"]) ];
    cbn [truthy negb andb]; eexists; reflexivity.
Qed.

(** C4.  [validate_request] returns a boolean on every object it is
    handed and never raises.  On an object with both attributes the answer is
    [true] when the data is not empty and the method is one of GET, POST, PUT
    and DELETE; it is [false] when the data is empty, whatever the method,
    and when the method is none of the four.  An exception raised inside the
    method, by the read of [request.data] or of [request.method], is caught
    and the answer is [false]. *)
Theorem validate_request_sound :
  forall (request : RequestObject) (h : Heap),
    exists (b : bool) (h' : Heap),
      KiroAgentInterface.validate_request_object request h = (Ok b, h')
      /\ (forall (d : dict) (m : string),
            attr_data request = Ok d -> attr_method request = Ok m ->
            d <> [] -> In m http_methods -> b = true)
      /\ (forall d : dict, attr_data request = Ok d -> d = [] -> b = false)
      /\ (forall (d : dict) (m : string),
            attr_data request = Ok d -> attr_method request = Ok m ->
            ~ In m http_methods -> b = false)
      /\ (forall e : PyException, attr_data request = Raise e -> b = false)
      /\ (forall (d : dict) (e : PyException),
            attr_data request = Ok d -> attr_method request = Raise e ->
            b = false).
Proof.
  intros [data method] [w a].
  unfold KiroAgentInterface.validate_request_object, http_methods,
    try_except, bind, lift.
  cbn [attr_data attr_method].
  destruct data as [[|kv d] | e];
    [| destruct method as [m | e];
       [destruct (str_in m ["GET"; "POST"; "PUT"; "DELETE"]) eqn:Hm|] |];
    cbn [truthy negb]; (do 2 eexists; split; [reflexivity|]); split_conj;
    try (intros; reflexivity); try (intros; congruence).
  - intros d' m' _ Hm' Hnot. injection Hm' as <-.
    apply str_in_In in Hm. contradiction.
  - intros d' m' _ Hm' _ Hin. injection Hm' as <-.
    apply str_in_In in Hin. congruence.
Qed.

(** The three ways of an answer [False]: empty data, a method outside the
    four, and an object without the attributes, where the handler answers. *)
Example validate_request_samples :
  fst (KiroAgentInterface.validate_request good_request (World0, fresh_cloudrun))
  = Ok true
  /\ fst (KiroAgentInterface.validate_request empty_request (World0, fresh_cloudrun))
     = Ok false
  /\ KiroAgentInterface.validate_request_object
       (mkRequestObject
          (Raise (mkExc "AttributeError" "'NoneType' object has no attribute 'data'"))
          (Raise (mkExc "AttributeError" "'NoneType' object has no attribute 'method'")))
       (World0, fresh_cloudrun)
     = (Ok false,
        (mkWorld 0 0
           [mkLog "beast_ai_dev_agent.common.models.cloudrun" ERROR
              "Request validation failed: 'NoneType' object has no attribute 'data'"],
         fresh_cloudrun)).
Proof. repeat split; vm_compute; reflexivity. Qed.

(** ** The factory *)

Lemma create_agent_unknown (env : Env) (p : string) (w : World) :
  ~ In p KiroAgentFactory.get_available_platforms ->
  KiroAgentFactory.create_agent env p w
  = (Raise (ValueError ("Unknown platform: " ++ p)), w).
Proof.
  intros H. unfold KiroAgentFactory.create_agent.
  destruct (String.eqb_spec p "gke") as [-> | _].
  - exfalso. apply H. left. reflexivity.
  - destruct (String.eqb_spec p "cloudrun") as [-> | _].
    + exfalso. apply H. right. left. reflexivity.
    + reflexivity.
Qed.

Lemma create_agent_known (env : Env) (p : string) (w : World) :
  In p KiroAgentFactory.get_available_platforms ->
  match py_int env (getenv env "PORT" "8080") with
  | Ok n =>
      exists (a : Agent) (w' : World),
        KiroAgentFactory.create_agent env p w = (Ok a, w')
        /\ platform a = p
        /\ cls a = (if String.eqb p "gke" then GKE else CloudRun)
        /\ request_count a = 0 /\ error_count a = 0 /\ response_times a = []
  | Raise e => KiroAgentFactory.create_agent env p w = (Raise e, w)
  end.
Proof.
  intros [<- | [<- | []]];
    unfold KiroAgentFactory.create_agent, GKEKiroAgent.__init__,
      CloudRunKiroAgent.__init__, bind, lift;
    cbn [String.eqb Ascii.eqb Bool.eqb];
    destruct (py_int env (getenv env "PORT" "8080")) as [n | e];
    try reflexivity;
    (eexists; eexists; split; [reflexivity | repeat split]).
Qed.

(** C5.  The platforms on offer are "gke" and "cloudrun", and
    [validate_platform] is membership in that list.  For every other string,
    "cloud_functions" among them, [create_agent] raises [ValueError] with
    the message "Unknown platform: <name>" and changes nothing.  For the two
    names of the list it runs the constructor of that class: when [int] reads
    the port (the variable [PORT], or "8080" without it) the call returns a
    new agent of that platform, with both counters at zero and no recorded
    sample, and otherwise the error is the one [int] raised.  So
    [create_agent] returns an agent exactly for the names of the list. *)
Theorem create_agent_closed_mapping :
  KiroAgentFactory.get_available_platforms = ["gke"; "cloudrun"]
  /\ (forall p : string,
        KiroAgentFactory.validate_platform p = true
        <-> In p KiroAgentFactory.get_available_platforms)
  /\ (forall (env : Env) (p : string) (w : World),
        ~ In p KiroAgentFactory.get_available_platforms ->
        KiroAgentFactory.create_agent env p w
        = (Raise (ValueError ("Unknown platform: " ++ p)), w))
  /\ (forall (env : Env) (w : World),
        KiroAgentFactory.create_agent env "cloud_functions" w
        = (Raise (ValueError "Unknown platform: cloud_functions"), w))
  /\ (forall (env : Env) (p : string) (w : World) (n : Z),
        In p KiroAgentFactory.get_available_platforms ->
        py_int env (getenv env "PORT" "8080") = Ok n ->
        exists (a : Agent) (w' : World),
          KiroAgentFactory.create_agent env p w = (Ok a, w')
          /\ platform a = p
          /\ cls a = (if String.eqb p "gke" then GKE else CloudRun)
          /\ request_count a = 0 /\ error_count a = 0 /\ response_times a = [])
  /\ (forall (env : Env) (p : string) (w : World) (e : PyException),
        In p KiroAgentFactory.get_available_platforms ->
        py_int env (getenv env "PORT" "8080") = Raise e ->
        KiroAgentFactory.create_agent env p w = (Raise e, w))
  /\ (forall (env : Env) (p : string) (w w' : World) (a : Agent),
        KiroAgentFactory.create_agent env p w = (Ok a, w') ->
        In p KiroAgentFactory.get_available_platforms).
Proof.
  split; [reflexivity|].
  split; [intros p; apply str_in_In|].
  split; [intros env p w H; apply create_agent_unknown; exact H|].
  split.
  { intros env w. apply (create_agent_unknown env "cloud_functions" w).
    simpl. intros [H | [H | []]]; discriminate H. }
  split.
  { intros env p w n Hin Hport.
    pose proof (create_agent_known env p w Hin) as H.
    rewrite Hport in H. exact H. }
  split.
  { intros env p w e Hin Hport.
    pose proof (create_agent_known env p w Hin) as H.
    rewrite Hport in H. exact H. }
  intros env p w w' a Hrun.
  destruct (str_in p KiroAgentFactory.get_available_platforms) eqn:Hp.
  - apply str_in_In. exact Hp.
  - apply str_in_not_In in Hp.
    rewrite (create_agent_unknown env p w Hp) in Hrun. discriminate Hrun.
Qed.

(** In the sample environment both names of the list give an agent. *)
Example create_agent_sample :
  fst (KiroAgentFactory.create_agent sample_env "gke" World0) = Ok fresh_gke
  /\ fst (KiroAgentFactory.create_agent sample_env "cloudrun" World0)
     = Ok fresh_cloudrun.
Proof. split; vm_compute; reflexivity. Qed.

(** ** One request *)

(** [analyze_data] returns the payload when both calls of the analysis step
    return, and raises the exception of the first that raises; the state in
    which it runs decides the identifier and the timestamp only. *)
Lemma analyze_data_outcome (env : Env) (perform_analysis : dict -> result dict)
    (data : dict) (w : World) (a : Agent) :
  exists w' : World,
    KiroAgentInterface.analyze_data env perform_analysis data (w, a)
    = (match analysis_step env perform_analysis data with
       | Ok (r, n) => Ok (analysis_payload env w a data r n)
       | Raise e => Raise e
       end, (w', a))
    /\ clock_reads w' = S (clock_reads w)
    /\ uuid_draws w' = S (uuid_draws w).
Proof.
  unfold analysis_step, analysis_payload, analysis_id_in.
  unfold_methods. cbn -[String.append].
  destruct (perform_analysis data) as [r | e]; cbn -[String.append];
    [destruct (str_len env data) as [n | e]; cbn -[String.append] |];
    eexists; repeat split.
Qed.

Lemma analysis_returns_step (env : Env) (perform_analysis : dict -> result dict)
    (h : Heap) (r : KiroRequest.t) :
  analysis_returns env perform_analysis h r
  = is_ok (analysis_step env perform_analysis (KiroRequest.data r)).
Proof.
  unfold analysis_returns. destruct h as [w a].
  destruct (analyze_data_outcome env perform_analysis (KiroRequest.data r) w a)
    as (w' & -> & _).
  cbn [fst].
  destruct (analysis_step env perform_analysis (KiroRequest.data r)) as [[res n] | e];
    reflexivity.
Qed.

(** The analysis step fails exactly when one of its two calls does, with
    the exception of that call, in whatever state it is run. *)
Lemma analyze_data_raises (env : Env) (perform_analysis : dict -> result dict)
    (data : dict) (h : Heap) (e : PyException) :
  fst (KiroAgentInterface.analyze_data env perform_analysis data h) = Raise e
  <-> analysis_step env perform_analysis data = Raise e.
Proof.
  destruct h as [w a].
  destruct (analyze_data_outcome env perform_analysis data w a) as (w' & -> & _).
  cbn [fst].
  destruct (analysis_step env perform_analysis data) as [[r n] | e'].
  - split; discriminate.
  - split; intros H; injection H as ->; reflexivity.
Qed.

Lemma analyze_data_returns (env : Env) (perform_analysis : dict -> result dict)
    (data : dict) (h : Heap) (payload : dict) :
  fst (KiroAgentInterface.analyze_data env perform_analysis data h) = Ok payload ->
  exists (r : dict) (n : Z),
    analysis_step env perform_analysis data = Ok (r, n)
    /\ payload = analysis_payload env (fst h) (snd h) data r n.
Proof.
  destruct h as [w a].
  destruct (analyze_data_outcome env perform_analysis data w a) as (w' & -> & _).
  cbn [fst snd].
  destruct (analysis_step env perform_analysis data) as [[r n] | e']; intros H.
  - injection H as <-. exists r, n. split; reflexivity.
  - discriminate H.
Qed.

(** What one call of [process_request] does, on both paths. *)
Lemma process_request_run (env : Env) (perform_analysis : dict -> result dict)
    (req : KiroRequest.t) (w : World) (a : Agent) :
  exists (resp : KiroResponse.t) (w' : World) (a' : Agent),
    process_request env perform_analysis req (w, a) = (Ok resp, (w', a'))
    /\ cls a' = cls a /\ platform a' = platform a
    /\ request_count a' = request_count a + 1
    /\ dict_get "X-Platform" (KiroResponse.headers resp) = Some (x_platform (cls a))
    /\ (exists entries : list LogRecord,
          logged w w' entries
          /\ Forall (fun r => log_level r <> WARNING) entries)
    /\ match analysis_step env perform_analysis (KiroRequest.data req) with
       | Ok (r, n) =>
           error_count a' = error_count a
           /\ (exists t : Q, response_times a' = (response_times a ++ [t])%list)
           /\ KiroResponse.status_code resp = 200
           /\ dict_get "analysis_id" (KiroResponse.data resp)
              = Some (VStr (analysis_id_in env w a))
           /\ dict_get "input_data" (KiroResponse.data resp)
              = Some (VDict (KiroRequest.data req))
           /\ dict_get "analysis_result" (KiroResponse.data resp) = Some (VDict r)
       | Raise e =>
           error_count a' = error_count a + 1
           /\ response_times a' = response_times a
           /\ KiroResponse.status_code resp = 500
           /\ dict_get "error" (KiroResponse.data resp) = Some (VStr (exc_str e))
       end.
Proof.
  unfold logged, analysis_id_in, analysis_step.
  destruct a as [c p rc ec rts lg pt].
  destruct c; unfold_methods; cbn -[String.append Z.add Z.sub];
    (destruct (perform_analysis (KiroRequest.data req)) as [r | e];
     cbn -[String.append Z.add Z.sub];
     [destruct (str_len env (KiroRequest.data req)) as [n | e];
      cbn -[String.append Z.add Z.sub] |]);
    (do 3 eexists; split; [reflexivity|];
     repeat (split; try reflexivity);
     try (eexists; reflexivity);
     try (eexists; split; [cbn [log]; rewrite <- ?app_assoc; reflexivity|];
          repeat constructor; discriminate)).
Qed.

(** C2.  [process_request] returns a response for every request, every
    agent and every analysis routine: no exception leaves it.  When the
    analysis step raises [e], the call adds exactly one to [error_count] and
    the response has status 500 and carries [str(e)] under the key
    "error". *)
Theorem process_request_contains_failures :
  forall (env : Env) (perform_analysis : dict -> result dict)
         (req : KiroRequest.t) (w : World) (a : Agent),
    exists (resp : KiroResponse.t) (w' : World) (a' : Agent),
      process_request env perform_analysis req (w, a) = (Ok resp, (w', a'))
      /\ forall (e : PyException) (h : Heap),
           fst (KiroAgentInterface.analyze_data env perform_analysis
                  (KiroRequest.data req) h) = Raise e ->
           error_count a' = error_count a + 1
           /\ KiroResponse.status_code resp = 500
           /\ dict_get "error" (KiroResponse.data resp) = Some (VStr (exc_str e)).
Proof.
  intros env pa req w a.
  destruct (process_request_run env pa req w a)
    as (resp & w' & a' & Hrun & _ & _ & _ & _ & _ & Hout).
  exists resp, w', a'. split; [exact Hrun|].
  intros e h He. apply analyze_data_raises in He. rewrite He in Hout.
  destruct Hout as (Hec & _ & Hst & Herr). auto.
Qed.

(** A failing analysis on a concrete request, and a payload that the
    routine accepts and [str] refuses. *)
Example process_request_failure_sample :
  (exists (w' : World) (a' : Agent),
     process_request sample_env picky_analysis bad_request (World0, fresh_cloudrun)
     = (Ok (KiroResponse.mk 500
              [("error", VStr "bad payload"); ("platform", VStr "cloudrun")]
              [("X-Platform", "cloudrun")] "T+500000"),
        (w', a'))
     /\ error_count a' = 1 /\ request_count a' = 1)
  /\ (exists (w' : World) (a' : Agent),
        process_request sample_env picky_analysis huge_request (World0, fresh_cloudrun)
        = (Ok (KiroResponse.mk 500
                 [("error", VStr "Exceeds the limit (4300 digits) for integer string conversion");
                  ("platform", VStr "cloudrun")]
                 [("X-Platform", "cloudrun")] "T+500000"),
           (w', a'))
        /\ error_count a' = 1 /\ request_count a' = 1).
Proof.
  split; do 2 eexists; (split; [vm_compute; reflexivity|]); split; reflexivity.
Qed.

(** ** A sequence of requests *)

Lemma analysed_failed_length (env : Env) (perform_analysis : dict -> result dict)
    (h : Heap) (requests : list KiroRequest.t) :
  (analysed env perform_analysis h requests + failed env perform_analysis h requests
   = length requests)%nat.
Proof.
  unfold analysed, failed. induction requests as [|r rest IH]; simpl.
  - reflexivity.
  - destruct (analysis_returns env perform_analysis h r); simpl; lia.
Qed.

Lemma process_requests_run (env : Env) (perform_analysis : dict -> result dict)
    (h0 : Heap) (requests : list KiroRequest.t) :
  forall (w : World) (a : Agent),
    exists (resps : list KiroResponse.t) (w' : World) (a' : Agent),
      process_requests env perform_analysis requests (w, a) = (Ok resps, (w', a'))
      /\ length resps = length requests
      /\ cls a' = cls a /\ platform a' = platform a
      /\ request_count a' = request_count a + Z.of_nat (length requests)
      /\ error_count a'
         = error_count a + Z.of_nat (failed env perform_analysis h0 requests).
Proof.
  induction requests as [|r rest IH]; intros w a.
  - exists [], w, a. cbn. repeat split; lia.
  - destruct (process_request_run env perform_analysis r w a)
      as (resp & w1 & a1 & Hrun & Hcls & Hpl & Hrc & _ & _ & Hout).
    destruct (IH w1 a1) as (resps & w2 & a2 & Hrest & Hlen & Hcls2 & Hpl2 & Hrc2 & Hec2).
    exists (resp :: resps), w2, a2.
    split.
    { cbn [process_requests]. unfold bind at 1. rewrite Hrun.
      unfold bind at 1. rewrite Hrest. reflexivity. }
    split; [cbn; congruence|].
    split; [congruence|]. split; [congruence|].
    split; [cbn [length]; lia|].
    unfold failed in *. cbn [filter]. rewrite analysis_returns_step.
    destruct (analysis_step env perform_analysis (KiroRequest.data r)) as [[res n] | e];
      cbn [is_ok negb length].
    + destruct Hout as (Hec & _). lia.
    + destruct Hout as (Hec & _). lia.
Qed.

(** C3.  On an agent whose counters are at zero, after [process_request]
    has handled a list of requests of which the analysis step returns on [N]
    and raises on [M], [request_count] is [N + M] and [error_count] is [M]:
    every request is counted, the failed ones in both counters.  The
    analysis step is [analyze_data]: it fails when the analysis routine
    raises and when [len(str(data))] does. *)
Theorem counters_after_requests :
  forall (env : Env) (perform_analysis : dict -> result dict)
         (requests : list KiroRequest.t) (w : World) (a : Agent) (N M : nat),
    request_count a = 0 ->
    error_count a = 0 ->
    N = analysed env perform_analysis (w, a) requests ->
    M = failed env perform_analysis (w, a) requests ->
    exists (resps : list KiroResponse.t) (w' : World) (a' : Agent),
      process_requests env perform_analysis requests (w, a) = (Ok resps, (w', a'))
      /\ request_count a' = Z.of_nat (N + M)
      /\ error_count a' = Z.of_nat M.
Proof.
  intros env pa requests w a N M Hrc Hec -> ->.
  destruct (process_requests_run env pa (w, a) requests w a)
    as (resps & w' & a' & Hrun & _ & _ & _ & Hrc' & Hec').
  exists resps, w', a'. split; [exact Hrun|].
  rewrite analysed_failed_length. split; lia.
Qed.

Lemma counters_after_requests_witness :
  exists (resps : list KiroResponse.t) (w' : World) (a' : Agent),
    process_requests sample_env picky_analysis
      [good_request; bad_request; huge_request; empty_request]
      (World0, fresh_cloud_functions)
    = (Ok resps, (w', a'))
    /\ request_count a' = Z.of_nat (2 + 2)
    /\ error_count a' = Z.of_nat 2.
Proof.
  apply (counters_after_requests sample_env picky_analysis
           [good_request; bad_request; huge_request; empty_request]
           World0 fresh_cloud_functions 2 2); vm_compute; reflexivity.
Defined.

(** ** The platform header *)

Lemma CloudRunKiroAgent_init_inv (env : Env) (c : AgentClass) (w0 w : World) (a : Agent) :
  CloudRunKiroAgent.__init__ env c w0 = (Ok a, w) ->
  cls a = c /\ platform a = "cloudrun"
  /\ request_count a = 0 /\ error_count a = 0 /\ response_times a = [].
Proof.
  unfold CloudRunKiroAgent.__init__, bind, lift, ret, log_to.
  destruct (py_int env (getenv env "PORT" "8080")) as [n | e]; intros H.
  - injection H as <- _. repeat split.
  - discriminate H.
Qed.

Lemma GKEKiroAgent_init_inv (env : Env) (w0 w : World) (a : Agent) :
  GKEKiroAgent.__init__ env w0 = (Ok a, w) ->
  cls a = GKE /\ platform a = "gke"
  /\ request_count a = 0 /\ error_count a = 0 /\ response_times a = [].
Proof.
  unfold GKEKiroAgent.__init__. unfold bind at 1.
  destruct (CloudRunKiroAgent.__init__ env GKE w0) as [[a0 | e] w1] eqn:Hinit;
    intros H.
  - apply CloudRunKiroAgent_init_inv in Hinit.
    destruct Hinit as (Hc & _ & Hrc & Hec & Hrt).
    unfold bind, log_to, ret in H. injection H as <- _.
    destruct a0; cbn in *. repeat split; assumption.
  - discriminate H.
Qed.

(** On agents of the classes [CloudRunKiroAgent] and
    [CloudFunctionsKiroAgent] the header is the agent's own platform. *)
Lemma x_platform_header_own (env : Env) (perform_analysis : dict -> result dict)
    (req : KiroRequest.t) (w : World) (a : Agent) :
  cls a <> GKE ->
  platform a = class_platform (cls a) ->
  exists (resp : KiroResponse.t) (h' : Heap),
    process_request env perform_analysis req (w, a) = (Ok resp, h')
    /\ dict_get "X-Platform" (KiroResponse.headers resp) = Some (platform a).
Proof.
  intros Hc Hp.
  destruct (process_request_run env perform_analysis req w a)
    as (resp & w' & a' & Hrun & _ & _ & _ & Hhd & _).
  exists resp, (w', a'). split; [exact Hrun|].
  rewrite Hhd, Hp. destruct (cls a); try reflexivity. contradiction Hc; reflexivity.
Qed.

(** C6.  The response of an agent built by [GKEKiroAgent()] carries the
    header X-Platform with the value "cloudrun", on the success path and on
    the failure path alike, while the platform attribute of the agent is
    "gke": the inherited [process_request] writes the constant of its
    parent class. *)
Theorem gke_x_platform_header :
  forall (env : Env) (perform_analysis : dict -> result dict)
         (req : KiroRequest.t) (w0 w : World) (a : Agent),
    GKEKiroAgent.__init__ env w0 = (Ok a, w) ->
    exists (resp : KiroResponse.t) (h' : Heap),
      process_request env perform_analysis req (w, a) = (Ok resp, h')
      /\ platform a = "gke"
      /\ dict_get "X-Platform" (KiroResponse.headers resp) = Some "cloudrun"
      /\ dict_get "X-Platform" (KiroResponse.headers resp) <> Some (platform a).
Proof.
  intros env pa req w0 w a Hinit.
  apply GKEKiroAgent_init_inv in Hinit. destruct Hinit as (Hc & Hp & _).
  destruct (process_request_run env pa req w a)
    as (resp & w' & a' & Hrun & _ & _ & _ & Hhd & _).
  exists resp, (w', a'). rewrite Hc in Hhd. cbn in Hhd.
  repeat split; try assumption.
  rewrite Hhd, Hp. discriminate.
Qed.

Lemma gke_x_platform_header_witness :
  exists (resp : KiroResponse.t) (h' : Heap),
    process_request sample_env picky_analysis good_request
      (snd (GKEKiroAgent.__init__ sample_env World0), fresh_gke) = (Ok resp, h')
    /\ platform fresh_gke = "gke"
    /\ dict_get "X-Platform" (KiroResponse.headers resp) = Some "cloudrun"
    /\ dict_get "X-Platform" (KiroResponse.headers resp) <> Some (platform fresh_gke).
Proof.
  apply (gke_x_platform_header sample_env picky_analysis good_request World0).
  vm_compute. reflexivity.
Defined.

(** ** Validation is not part of request handling *)

(** What [validate_request] does with a request it rejects: it answers
    [False] and logs one warning. *)
Lemma validate_request_rejects (req : KiroRequest.t) (w : World) (a : Agent) :
  KiroRequest.data req = [] \/ ~ In (KiroRequest.method req) http_methods ->
  exists msg : string,
    KiroAgentInterface.validate_request req (w, a)
    = (Ok false,
       (mkWorld (clock_reads w) (uuid_draws w)
                (log w ++ [mkLog (logger a) WARNING msg]), a)).
Proof.
  intros H.
  unfold KiroAgentInterface.validate_request,
    KiroAgentInterface.validate_request_object, KiroRequest.as_object,
    try_except, bind, lift.
  cbn [attr_data attr_method].
  destruct (KiroRequest.data req) as [|kv d] eqn:Hd.
  - eexists. reflexivity.
  - destruct H as [H | H]; [discriminate H|].
    apply str_in_not_In in H. unfold http_methods in H. cbn [truthy negb].
    rewrite H. eexists. reflexivity.
Qed.

(** C8.  A request that [validate_request] rejects, because its data is
    empty or its method is none of GET, POST, PUT and DELETE, is analysed by
    [process_request] all the same: when the analysis step [analyze_data]
    returns on its data, the response has status 200 and carries the request
    data and the analysis result, and no error is counted.
    [validate_request] logs a warning for such a request; the records that
    [process_request] logs contain no warning. *)
Theorem process_request_skips_validation :
  forall (env : Env) (perform_analysis : dict -> result dict)
         (req : KiroRequest.t) (w : World) (a : Agent) (payload : dict),
    KiroRequest.data req = [] \/ ~ In (KiroRequest.method req) http_methods ->
    fst (KiroAgentInterface.analyze_data env perform_analysis
           (KiroRequest.data req) (w, a)) = Ok payload ->
    fst (KiroAgentInterface.validate_request req (w, a)) = Ok false
    /\ exists (resp : KiroResponse.t) (w' : World) (a' : Agent),
         process_request env perform_analysis req (w, a) = (Ok resp, (w', a'))
         /\ KiroResponse.status_code resp = 200
         /\ dict_get "input_data" (KiroResponse.data resp)
            = Some (VDict (KiroRequest.data req))
         /\ dict_get "analysis_result" (KiroResponse.data resp)
            = dict_get "analysis_result" payload
         /\ error_count a' = error_count a
         /\ exists entries : list LogRecord,
              logged w w' entries
              /\ Forall (fun l => log_level l <> WARNING) entries.
Proof.
  intros env pa req w a payload Hbad Hok. split.
  - destruct (validate_request_rejects req w a Hbad) as (msg & ->). reflexivity.
  - apply analyze_data_returns in Hok. destruct Hok as (r & n & Hstep & ->).
    destruct (process_request_run env pa req w a)
      as (resp & w' & a' & Hrun & _ & _ & _ & _ & Hlog & Hout).
    rewrite Hstep in Hout.
    destruct Hout as (Hec & _ & Hst & _ & Hin & Har).
    exists resp, w', a'. repeat split; assumption.
Qed.

Lemma process_request_skips_validation_witness :
  fst (KiroAgentInterface.validate_request empty_request (World0, fresh_cloudrun))
  = Ok false
  /\ exists (resp : KiroResponse.t) (w' : World) (a' : Agent),
       process_request sample_env KiroAgentInterface._perform_analysis
         empty_request (World0, fresh_cloudrun) = (Ok resp, (w', a'))
       /\ KiroResponse.status_code resp = 200
       /\ dict_get "input_data" (KiroResponse.data resp)
          = Some (VDict (KiroRequest.data empty_request))
       /\ dict_get "analysis_result" (KiroResponse.data resp)
          = dict_get "analysis_result"
              (analysis_payload sample_env World0 fresh_cloudrun []
                 [("status", VStr "analyzed");
                  ("confidence", VFloat (95 # 100));
                  ("categories", VList [VStr "example_category"]);
                  ("insights", VList [VStr "Example insight from analysis"])]
                 0)
       /\ error_count a' = error_count fresh_cloudrun
       /\ exists entries : list LogRecord,
            logged World0 w' entries
            /\ Forall (fun l => log_level l <> WARNING) entries.
Proof.
  apply (process_request_skips_validation sample_env
           KiroAgentInterface._perform_analysis empty_request World0 fresh_cloudrun).
  - left. reflexivity.
  - reflexivity.
Defined.

(** ** The envelope builders *)

(** C10.  [create_error_response] returns an envelope with the given
    status (500 by default), status "error", the message and the platform,
    and adds exactly one to [error_count]; [create_success_response] returns
    an envelope with the given status (200 by default), status "success",
    the platform and the data, and adds exactly one to [request_count].
    Each leaves the other counter, the platform and the recorded samples as
    they were. *)
Theorem create_response_counters :
  forall (env : Env) (w : World) (a : Agent) (status_code : option Z),
    (forall error_message : string,
       exists (resp : KiroResponse.t) (w' : World) (a' : Agent),
         KiroAgentInterface.create_error_response env error_message status_code (w, a)
         = (Ok resp, (w', a'))
         /\ error_count a' = error_count a + 1
         /\ request_count a' = request_count a
         /\ platform a' = platform a
         /\ response_times a' = response_times a
         /\ KiroResponse.status_code resp
            = match status_code with Some c => c | None => 500 end
         /\ dict_get "status" (KiroResponse.data resp) = Some (VStr "error")
         /\ dict_get "message" (KiroResponse.data resp) = Some (VStr error_message)
         /\ dict_get "platform" (KiroResponse.data resp) = Some (VStr (platform a))
         /\ KiroResponse.headers resp = [("Content-Type", "application/json")])
    /\ (forall data : dict,
          exists (resp : KiroResponse.t) (w' : World) (a' : Agent),
            KiroAgentInterface.create_success_response env data status_code (w, a)
            = (Ok resp, (w', a'))
            /\ request_count a' = request_count a + 1
            /\ error_count a' = error_count a
            /\ platform a' = platform a
            /\ response_times a' = response_times a
            /\ KiroResponse.status_code resp
               = match status_code with Some c => c | None => 200 end
            /\ dict_get "status" (KiroResponse.data resp) = Some (VStr "success")
            /\ dict_get "platform" (KiroResponse.data resp) = Some (VStr (platform a))
            /\ dict_get "result" (KiroResponse.data resp) = Some (VDict data)
            /\ KiroResponse.headers resp = [("Content-Type", "application/json")]).
Proof.
  intros env w a status_code. split; intros x;
    unfold_methods; cbn -[Z.add];
    do 3 eexists; (split; [reflexivity|]); cbn -[Z.add]; repeat split.
Qed.

(** ** Health *)

(** The Redis probe answers "disabled" unless the variable
    BEAST_MODE_ENABLED is set to a spelling of "true". *)
Lemma _check_redis_disabled (env : Env) (h : Heap) :
  String.eqb (lower (getenv env "BEAST_MODE_ENABLED" "false")) "true" = false ->
  CloudRunKiroAgent._check_redis env h = (Ok "disabled", h).
Proof. intros H. unfold CloudRunKiroAgent._check_redis. rewrite H. reflexivity. Qed.

Lemma _check_redis_default (env : Env) (h : Heap) :
  environ env "BEAST_MODE_ENABLED" = None ->
  CloudRunKiroAgent._check_redis env h = (Ok "disabled", h).
Proof.
  intros H. apply _check_redis_disabled. unfold getenv. rewrite H. reflexivity.
Qed.

(** The payload of [health_check], for every class: it never raises, the
    status is "healthy", the platform is the constant of the class that
    defines the method, and the request count is the current one.  The
    payload of [CloudRunKiroAgent.health_check] has the Redis probe under
    "checks"; that of [CloudFunctionsKiroAgent.health_check] has no
    "checks". *)
Lemma health_check_run (env : Env) (w : World) (a : Agent) :
  exists (payload : dict) (w' : World),
    health_check env (w, a) = (Ok payload, (w', a))
    /\ dict_get "status" payload = Some (VStr "healthy")
    /\ dict_get "platform" payload = Some (VStr (x_platform (cls a)))
    /\ dict_get "request_count" payload = Some (VInt (request_count a))
    /\ match cls a with
       | CloudRun | GKE =>
           String.eqb (lower (getenv env "BEAST_MODE_ENABLED" "false")) "true" = false ->
           exists checks : dict,
             dict_get "checks" payload = Some (VDict checks)
             /\ dict_get "redis" checks = Some (VStr "disabled")
       | CloudFunctions => dict_get "checks" payload = None
       end.
Proof.
  destruct a as [c p rc ec rts lg pt].
  destruct c; unfold_methods; cbn;
    try (unfold CloudRunKiroAgent._check_redis;
         destruct (String.eqb (lower (getenv env "BEAST_MODE_ENABLED" "false")) "true");
         cbn);
    do 2 eexists; (split; [reflexivity|]); repeat split;
    try (intros H; discriminate H);
    try (intros _; eexists; split; reflexivity).
Qed.

(** C9.  The health payload of an agent built by [GKEKiroAgent()] has
    status "healthy", the current request count and, with the Redis flag
    off, "disabled" for Redis, but its platform entry is "cloudrun" while
    the platform attribute of the agent is "gke". *)
Theorem gke_health_check_platform :
  forall (env : Env) (w0 w : World) (a : Agent),
    GKEKiroAgent.__init__ env w0 = (Ok a, w) ->
    environ env "BEAST_MODE_ENABLED" = None ->
    exists (payload : dict) (h' : Heap),
      health_check env (w, a) = (Ok payload, h')
      /\ dict_get "status" payload = Some (VStr "healthy")
      /\ dict_get "request_count" payload = Some (VInt (request_count a))
      /\ (exists checks : dict,
            dict_get "checks" payload = Some (VDict checks)
            /\ dict_get "redis" checks = Some (VStr "disabled"))
      /\ platform a = "gke"
      /\ dict_get "platform" payload = Some (VStr "cloudrun")
      /\ dict_get "platform" payload <> Some (VStr (platform a)).
Proof.
  intros env w0 w a Hinit Hflag.
  apply GKEKiroAgent_init_inv in Hinit. destruct Hinit as (Hc & Hp & _).
  destruct (health_check_run env w a) as (payload & w' & Hrun & Hst & Hpl & Hrc & Hchk).
  rewrite Hc in Hpl, Hchk. cbn in Hpl.
  exists payload, (w', a). repeat split; try assumption.
  - apply Hchk. unfold getenv. rewrite Hflag. reflexivity.
  - rewrite Hpl, Hp. discriminate.
Qed.

Lemma gke_health_check_platform_witness :
  exists (payload : dict) (h' : Heap),
    health_check sample_env (snd (GKEKiroAgent.__init__ sample_env World0), fresh_gke)
    = (Ok payload, h')
    /\ dict_get "status" payload = Some (VStr "healthy")
    /\ dict_get "request_count" payload = Some (VInt (request_count fresh_gke))
    /\ (exists checks : dict,
          dict_get "checks" payload = Some (VDict checks)
          /\ dict_get "redis" checks = Some (VStr "disabled"))
    /\ platform fresh_gke = "gke"
    /\ dict_get "platform" payload = Some (VStr "cloudrun")
    /\ dict_get "platform" payload <> Some (VStr (platform fresh_gke)).
Proof.
  apply (gke_health_check_platform sample_env World0).
  - vm_compute. reflexivity.
  - reflexivity.
Defined.

(** On the other two classes the platform entry is the agent's own. *)
Lemma health_check_platform_own (env : Env) (w : World) (a : Agent) :
  cls a <> GKE ->
  platform a = class_platform (cls a) ->
  exists (payload : dict) (h' : Heap),
    health_check env (w, a) = (Ok payload, h')
    /\ dict_get "platform" payload = Some (VStr (platform a)).
Proof.
  intros Hc Hp.
  destruct (health_check_run env w a) as (payload & w' & Hrun & _ & Hpl & _).
  exists payload, (w', a). split; [exact Hrun|].
  rewrite Hpl, Hp. destruct (cls a); try reflexivity. contradiction Hc; reflexivity.
Qed.

(** ** Metrics *)

(** C1.  [get_metrics] raises [TypeError] on every agent, in every state:
    the call of [KiroMetrics] passes six of the eight required fields and
    leaves out [instance_id] and [timestamp].  No metrics record is
    returned, with or without recorded samples. *)
Theorem get_metrics_raises :
  forall (env : Env) (w : World) (a : Agent),
    get_metrics env (w, a)
    = (Raise (TypeError
         "KiroMetrics.__init__() missing 2 required positional arguments: 'instance_id' and 'timestamp'"),
       (w, a)).
Proof.
  intros env w a. destruct a as [c p rc ec rts lg pt].
  destruct c; unfold_methods; cbn;
    try (destruct (psutil env) as [[rss cpu]|]; cbn); reflexivity.
Qed.

(** ** The analysis payload *)

(** The identifier of an analysis on a Cloud Run agent starts with "kiro_",
    not with the platform name "cloudrun"; and on a payload holding an
    integer of 5001 digits [analyze_data] returns no result: it raises the
    [ValueError] of [str]. *)
Lemma analysis_id_prefix_counterexample :
  (exists (result : dict) (h' : Heap) (id : string),
     KiroAgentInterface.analyze_data sample_env KiroAgentInterface._perform_analysis
       [("x", VInt 1)] (World0, fresh_cloudrun) = (Ok result, h')
     /\ dict_get "analysis_id" result = Some (VStr id)
     /\ id = "kiro_cloudrun_9f1c2ab4"
     /\ String.prefix (platform fresh_cloudrun) id = false)
  /\ fst (KiroAgentInterface.analyze_data sample_env
            KiroAgentInterface._perform_analysis
            [("x", VInt huge_int)] (World0, fresh_cloudrun))
     = Raise (ValueError
                "Exceeds the limit (4300 digits) for integer string conversion").
Proof.
  split.
  - do 3 eexists. split; [vm_compute; reflexivity|].
    split; [reflexivity|]. split; reflexivity.
  - vm_compute. reflexivity.
Qed.

(** C7 (amended).  With the placeholder analysis routine, [analyze_data]
    returns, for every payload of which [len(str(data))] can be taken, a
    result whose [input_data] is the payload itself, whose [analysis_id] is
    "kiro_", the platform of the agent, "_" and the first eight hexadecimal
    digits of a new uuid, whose metadata has the entries [processing_time]
    and [data_size], and whose [analysis_result] has status "analyzed"; for a
    payload on which [str] raises, it raises that exception.  Hence POST
    /analyze with the body {"x": 1}, when the reply can be rendered, is
    answered with status 200 and a content in which [analysis_result.status]
    is "analyzed" and [input_data] is {"x": 1}. *)
Theorem analyze_data_payload :
  forall (env : Env) (w : World) (a : Agent),
    (forall (data : dict) (n : Z),
       str_len env data = Ok n ->
       exists (result : dict) (w' : World),
         KiroAgentInterface.analyze_data env KiroAgentInterface._perform_analysis
           data (w, a) = (Ok result, (w', a))
         /\ dict_get "input_data" result = Some (VDict data)
         /\ dict_get "analysis_id" result
            = Some (VStr ("kiro_" ++ platform a ++ "_"
                          ++ str_take 8 (uuid4_hex_at env (uuid_draws w))))
         /\ (exists (metadata : dict) (processing_time : value),
               dict_get "metadata" result = Some (VDict metadata)
               /\ dict_get "processing_time" metadata = Some processing_time
               /\ dict_get "data_size" metadata = Some (VInt n))
         /\ (exists analysis_result : dict,
               dict_get "analysis_result" result = Some (VDict analysis_result)
               /\ dict_get "status" analysis_result = Some (VStr "analyzed")))
    /\ (forall (data : dict) (e : PyException),
          str_len env data = Raise e ->
          exists w' : World,
            KiroAgentInterface.analyze_data env KiroAgentInterface._perform_analysis
              data (w, a) = (Raise e, (w', a)))
    /\ (forall (headers query : list (string * string)) (n : Z)
               (r : dict) (body : string),
          str_len env [("x", VInt 1)] = Ok n ->
          KiroAgentInterface._perform_analysis [("x", VInt 1)] = Ok r ->
          json_dumps env
            (analysis_payload env (analysis_world w) a [("x", VInt 1)] r n)
          = Ok body ->
          exists (resp : JSONResponse) (h' : Heap),
            CloudRunKiroAgent._analyze_handler env KiroAgentInterface._perform_analysis
              (mkHttpRequest (Ok [("x", VInt 1)]) headers "POST" "/analyze" query)
              (w, a) = (Ok resp, h')
            /\ status_code resp = 200
            /\ dict_get "input_data" (content resp) = Some (VDict [("x", VInt 1)])
            /\ (exists analysis_result : dict,
                  dict_get "analysis_result" (content resp)
                  = Some (VDict analysis_result)
                  /\ dict_get "status" analysis_result = Some (VStr "analyzed"))).
Proof.
  intros env w a. split_conj.
  - intros data n Hn.
    destruct (analyze_data_outcome env KiroAgentInterface._perform_analysis data w a)
      as (w' & Hrun & _).
    unfold analysis_step in Hrun. cbn [KiroAgentInterface._perform_analysis] in Hrun.
    rewrite Hn in Hrun.
    do 2 eexists. split; [exact Hrun|].
    split; [reflexivity|]. split; [reflexivity|].
    split; [do 2 eexists; repeat split; reflexivity|].
    eexists. split; reflexivity.
  - intros data e He.
    destruct (analyze_data_outcome env KiroAgentInterface._perform_analysis data w a)
      as (w' & Hrun & _).
    unfold analysis_step in Hrun. cbn [KiroAgentInterface._perform_analysis] in Hrun.
    rewrite He in Hrun. exists w'. exact Hrun.
  - intros headers query n r body Hn Hr Hjson.
    injection Hr as <-.
    unfold CloudRunKiroAgent._analyze_handler. unfold_methods.
    cbn -[String.append]. rewrite Hn. cbn -[String.append].
    unfold JSONResponse_new.
    unfold analysis_payload, analysis_world, analysis_id_in in Hjson.
    cbn -[String.append] in Hjson. rewrite Hjson.
    do 2 eexists. split; [reflexivity|]. cbn -[String.append].
    split; [reflexivity|]. split; [reflexivity|].
    eexists. split; reflexivity.
Qed.

(** In the sample environment the conditions of C7 hold for {"x": 1}. *)
Example analyze_handler_sample :
  exists (resp : JSONResponse) (h' : Heap),
    CloudRunKiroAgent._analyze_handler sample_env KiroAgentInterface._perform_analysis
      (mkHttpRequest (Ok [("x", VInt 1)]) [] "POST" "/analyze" [])
      (World0, fresh_cloudrun) = (Ok resp, h')
    /\ status_code resp = 200
    /\ dict_get "input_data" (content resp) = Some (VDict [("x", VInt 1)]).
Proof. do 2 eexists. split; [vm_compute; reflexivity|]. split; reflexivity. Qed.

(** * Further properties of the request path *)

(** The counters and samples after one call of [process_request], exactly. *)
Lemma process_request_exact (env : Env) (perform_analysis : dict -> result dict)
    (req : KiroRequest.t) (w : World) (a : Agent) :
  exists (resp : KiroResponse.t) (w' : World) (a' : Agent),
    process_request env perform_analysis req (w, a) = (Ok resp, (w', a'))
    /\ cls a' = cls a
    /\ request_count a' = request_count a + 1
    /\ match analysis_step env perform_analysis (KiroRequest.data req) with
       | Ok (r, n) =>
           error_count a' = error_count a
           /\ response_times a' = (response_times a ++ [sample_in env w])%list
           /\ KiroResponse.status_code resp = 200
           /\ (cls a <> CloudFunctions ->
               dict_get "X-Response-Time" (KiroResponse.headers resp)
               = Some (float_str env (sample_in env w)))
           /\ (cls a = CloudFunctions ->
               dict_get "X-Response-Time" (KiroResponse.headers resp) = None)
       | Raise e =>
           error_count a' = error_count a + 1
           /\ response_times a' = response_times a
           /\ KiroResponse.status_code resp = 500
           /\ KiroResponse.data resp = error_payload (cls a) e
           /\ KiroResponse.headers resp = [("X-Platform", x_platform (cls a))]
       end.
Proof.
  unfold sample_in, analysis_step.
  destruct a as [c p rc ec rts lg pt].
  destruct c; unfold_methods; cbn -[String.append Z.add Z.sub];
    (destruct (perform_analysis (KiroRequest.data req)) as [r | e];
     cbn -[String.append Z.add Z.sub];
     [destruct (str_len env (KiroRequest.data req)) as [n | e];
      cbn -[String.append Z.add Z.sub] |]);
    (do 3 eexists; split; [reflexivity|]);
    repeat (split; try reflexivity);
    try (intros H; discriminate H);
    try (intros H; contradiction H; reflexivity).
Qed.

Lemma samples_account_aux (env : Env) (perform_analysis : dict -> result dict)
    (h0 : Heap) (requests : list KiroRequest.t) :
  forall (w : World) (a : Agent),
    request_count a = error_count a + Z.of_nat (length (response_times a)) ->
    exists (resps : list KiroResponse.t) (w' : World) (a' : Agent),
      process_requests env perform_analysis requests (w, a) = (Ok resps, (w', a'))
      /\ request_count a' = error_count a' + Z.of_nat (length (response_times a'))
      /\ length (response_times a')
         = (length (response_times a)
            + analysed env perform_analysis h0 requests)%nat.
Proof.
  rename perform_analysis into pa.
  induction requests as [|r rest IH]; intros w a Hinv.
  - exists [], w, a. cbn. repeat split; [exact Hinv | lia].
  - destruct (process_request_exact env pa r w a)
      as (resp & w1 & a1 & Hrun & _ & Hrc & Hout).
    assert (Hstep : request_count a1
                    = error_count a1 + Z.of_nat (length (response_times a1))
                    /\ length (response_times a1)
                       = (length (response_times a)
                          + (if analysis_returns env pa h0 r then 1 else 0))%nat).
    { rewrite analysis_returns_step.
      destruct (analysis_step env pa (KiroRequest.data r)) as [[res n] | e];
        cbn [is_ok].
      - destruct Hout as (Hec & Hrt & _). rewrite Hrt, length_app. cbn [length].
        split; lia.
      - destruct Hout as (Hec & Hrt & _). rewrite Hrt. split; lia. }
    destruct Hstep as (Hinv1 & Hlen1).
    destruct (IH w1 a1 Hinv1) as (resps & w2 & a2 & Hrest & Hinv2 & Hlen2).
    exists (resp :: resps), w2, a2. split.
    { cbn [process_requests]. unfold bind at 1. rewrite Hrun.
      unfold bind at 1. rewrite Hrest. reflexivity. }
    split; [exact Hinv2|].
    rewrite Hlen2, Hlen1. unfold analysed. cbn [filter].
    destruct (analysis_returns env pa h0 r); cbn [length]; lia.
Qed.

(** X1.  Every request that [process_request] handles is accounted for
    once: it either adds one to [error_count] or records one sample.  So the
    equation [request_count = error_count + len(response_times)], once true,
    stays true over any sequence of requests, and the number of samples
    grows by the number of requests on which [analyze_data] returns. *)
Theorem samples_account_for_successes :
  forall (env : Env) (perform_analysis : dict -> result dict)
         (requests : list KiroRequest.t) (w : World) (a : Agent),
    request_count a = error_count a + Z.of_nat (length (response_times a)) ->
    exists (resps : list KiroResponse.t) (w' : World) (a' : Agent),
      process_requests env perform_analysis requests (w, a) = (Ok resps, (w', a'))
      /\ request_count a' = error_count a' + Z.of_nat (length (response_times a'))
      /\ length (response_times a')
         = (length (response_times a)
            + analysed env perform_analysis (w, a) requests)%nat.
Proof.
  intros env pa requests w a Hinv.
  exact (samples_account_aux env pa (w, a) requests w a Hinv).
Qed.

Lemma samples_account_for_successes_witness :
  exists (resps : list KiroResponse.t) (w' : World) (a' : Agent),
    process_requests sample_env picky_analysis
      [bad_request; good_request; huge_request; empty_request]
      (World0, fresh_gke) = (Ok resps, (w', a'))
    /\ request_count a' = error_count a' + Z.of_nat (length (response_times a'))
    /\ length (response_times a')
       = (length (response_times fresh_gke)
          + analysed sample_env picky_analysis (World0, fresh_gke)
              [bad_request; good_request; huge_request; empty_request])%nat.
Proof.
  apply (samples_account_for_successes sample_env picky_analysis
           [bad_request; good_request; huge_request; empty_request]
           World0 fresh_gke).
  reflexivity.
Defined.

(** X2.  With a clock that never steps back, no recorded sample is
    negative: if the samples of an agent are non-negative before a sequence
    of requests, they are so after it. *)
Theorem samples_nonnegative :
  forall (env : Env) (perform_analysis : dict -> result dict)
         (requests : list KiroRequest.t) (w : World) (a : Agent),
    (forall n : nat, utcnow_at env n <= utcnow_at env (S n)) ->
    Forall (fun t => (0 <= t)%Q) (response_times a) ->
    exists (resps : list KiroResponse.t) (w' : World) (a' : Agent),
      process_requests env perform_analysis requests (w, a) = (Ok resps, (w', a'))
      /\ Forall (fun t => (0 <= t)%Q) (response_times a').
Proof.
  intros env pa requests w a Hclock. revert w a.
  induction requests as [|r rest IH]; intros w a Hpos.
  - exists [], w, a. split; [reflexivity | exact Hpos].
  - destruct (process_request_exact env pa r w a)
      as (resp & w1 & a1 & Hrun & _ & _ & Hout).
    assert (Hpos1 : Forall (fun t => (0 <= t)%Q) (response_times a1)).
    { destruct (analysis_step env pa (KiroRequest.data r)) as [[res n] | e].
      - destruct Hout as (_ & Hrt & _). rewrite Hrt.
        apply Forall_app. split; [exact Hpos|].
        constructor; [|constructor].
        unfold sample_in, total_seconds, Qle. cbn.
        pose proof (Hclock (clock_reads w)).
        pose proof (Hclock (S (clock_reads w))). lia.
      - destruct Hout as (_ & Hrt & _). rewrite Hrt. exact Hpos. }
    destruct (IH w1 a1 Hpos1) as (resps & w2 & a2 & Hrest & Hpos2).
    exists (resp :: resps), w2, a2. split; [|exact Hpos2].
    cbn [process_requests]. unfold bind at 1. rewrite Hrun.
    unfold bind at 1. rewrite Hrest. reflexivity.
Qed.

Lemma samples_nonnegative_witness :
  exists (resps : list KiroResponse.t) (w' : World) (a' : Agent),
    process_requests sample_env picky_analysis [good_request; good_request]
      (World0, fresh_cloudrun) = (Ok resps, (w', a'))
    /\ Forall (fun t => (0 <= t)%Q) (response_times a').
Proof.
  apply (samples_nonnegative sample_env picky_analysis
           [good_request; good_request] World0 fresh_cloudrun).
  - intros n. cbn [utcnow_at sample_env]. lia.
  - constructor.
Defined.



(** X4.  The shape of a response depends on the class that defines
    [process_request].  After a failed analysis step the data of a Cloud Run
    or GKE agent has the entries "error" and "platform", the data of a Cloud
    Functions agent has "error" alone, and no header reports a response
    time.  After an analysis step that returns, a Cloud Run or GKE agent
    reports, in the header X-Response-Time, the sample it has just recorded;
    a Cloud Functions agent records the sample and sends no such header. *)
Theorem response_shape_by_class :
  forall (env : Env) (perform_analysis : dict -> result dict)
         (req : KiroRequest.t) (w : World) (a : Agent),
    exists (resp : KiroResponse.t) (w' : World) (a' : Agent),
      process_request env perform_analysis req (w, a) = (Ok resp, (w', a'))
      /\ (forall (e : PyException) (h : Heap),
            fst (KiroAgentInterface.analyze_data env perform_analysis
                   (KiroRequest.data req) h) = Raise e ->
            dict_get "X-Response-Time" (KiroResponse.headers resp) = None
            /\ dict_get "error" (KiroResponse.data resp) = Some (VStr (exc_str e))
            /\ dict_get "platform" (KiroResponse.data resp)
               = match cls a with
                 | CloudRun | GKE => Some (VStr "cloudrun")
                 | CloudFunctions => None
                 end
            /\ length (KiroResponse.data resp)
               = match cls a with
                 | CloudRun | GKE => 2%nat
                 | CloudFunctions => 1%nat
                 end)
      /\ (forall (payload : dict) (h : Heap),
            fst (KiroAgentInterface.analyze_data env perform_analysis
                   (KiroRequest.data req) h) = Ok payload ->
            exists t : Q,
              last (response_times a') (0 # 1) = t
              /\ length (response_times a') = S (length (response_times a))
              /\ dict_get "X-Response-Time" (KiroResponse.headers resp)
                 = match cls a with
                   | CloudRun | GKE => Some (float_str env t)
                   | CloudFunctions => None
                   end).
Proof.
  intros env pa req w a.
  destruct (process_request_exact env pa req w a)
    as (resp & w' & a' & Hrun & _ & _ & Hout).
  exists resp, w', a'. split; [exact Hrun|]. split.
  - intros e h He. apply analyze_data_raises in He. rewrite He in Hout.
    destruct Hout as (_ & _ & Hst & Hdata & Hhd).
    rewrite Hdata, Hhd. destruct (cls a); repeat split.
  - intros payload h Hp. apply analyze_data_returns in Hp.
    destruct Hp as (r & n & Hstep & _). rewrite Hstep in Hout.
    destruct Hout as (_ & Hrt & _ & Hhdr & Hnohdr).
    exists (sample_in env w). rewrite Hrt. split; [apply last_last|].
    split; [rewrite length_app; cbn [length]; lia|].
    destruct (cls a) eqn:Hc.
    + apply Hhdr. discriminate.
    + apply Hhdr. discriminate.
    + apply Hnohdr. reflexivity.
Qed.

(** * Validation, handlers and probes *)

(** X5.  [validate_request] only looks: it changes no attribute of the
    agent, reads no clock and draws no uuid.  When it accepts a request it
    logs nothing; when it rejects one it logs exactly one warning, on the
    logger of the agent. *)
Theorem validate_request_frame :
  forall (req : KiroRequest.t) (w : World) (a : Agent),
    exists (b : bool) (w' : World),
      KiroAgentInterface.validate_request req (w, a) = (Ok b, (w', a))
      /\ clock_reads w' = clock_reads w
      /\ uuid_draws w' = uuid_draws w
      /\ (b = true -> w' = w)
      /\ (b = false ->
          exists msg : string,
            log w' = (log w ++ [mkLog (logger a) WARNING msg])%list).
Proof.
  intros req w a.
  unfold KiroAgentInterface.validate_request,
    KiroAgentInterface.validate_request_object, KiroRequest.as_object,
    try_except, bind, lift.
  cbn [attr_data attr_method].
  destruct (KiroRequest.data req) as [|kv d];
    [| destruct (str_in (KiroRequest.method req) ["GET"; "POST"; "PUT"; "DELETE"]) ];
    cbn [truthy negb]; (do 2 eexists; split; [reflexivity|]); cbn;
    repeat split; try discriminate;
    try (intros _; eexists; reflexivity).
Qed.

(** The outcomes of [_analyze_handler]: the reply of [process_request] is
    rendered inside the [try], the error reply outside it. *)
Lemma analyze_handler_cases (env : Env) (perform_analysis : dict -> result dict)
    (request : HttpRequest) (w : World) (a : Agent) :
  exists (out : result JSONResponse) (w' : World) (a' : Agent),
    CloudRunKiroAgent._analyze_handler env perform_analysis request (w, a)
    = (out, (w', a'))
    /\ match json request with
       | Raise e =>
           a' = a /\ out = JSONResponse_new env (error_payload CloudRun e) 500
       | Ok body =>
           request_count a' = request_count a + 1
           /\ match analysis_step env perform_analysis body with
              | Raise e =>
                  error_count a' = error_count a + 1
                  /\ match json_dumps env (error_payload CloudRun e) with
                     | Ok _ =>
                         out = Ok (mkJSONResponse (error_payload CloudRun e) 500)
                     | Raise e' =>
                         out = JSONResponse_new env (error_payload CloudRun e') 500
                     end
              | Ok (r, n) =>
                  error_count a' = error_count a
                  /\ match json_dumps env
                             (analysis_payload env (analysis_world w) a body r n) with
                     | Ok _ =>
                         out = Ok (mkJSONResponse
                                     (analysis_payload env (analysis_world w) a body r n)
                                     200)
                     | Raise e =>
                         out = JSONResponse_new env (error_payload CloudRun e) 500
                     end
              end
       end.
Proof.
  destruct a as [c p rc ec rts lg pt].
  unfold analysis_step, analysis_payload, analysis_world, analysis_id_in,
    error_payload, JSONResponse_new.
  unfold CloudRunKiroAgent._analyze_handler. unfold_methods.
  unfold JSONResponse_new.
  repeat (cbn -[String.append Z.add Z.sub str_take];
          match goal with
          | |- context [json request] => destruct (json request)
          | |- context [perform_analysis ?d] => destruct (perform_analysis d)
          | |- context [str_len env ?d] => destruct (str_len env d)
          | |- context [json_dumps env ?d] => destruct (json_dumps env d)
          end);
    cbn -[String.append Z.add Z.sub str_take];
    do 3 eexists; (split; [reflexivity|]); repeat split.
Qed.

(** X6.  [_analyze_handler] answers with status 500 and the content
    {error, platform: "cloudrun"} in three cases that the counters tell
    apart.  A body that cannot be parsed leaves the agent as it was.  A
    parsed body is counted as a request; when the analysis step raises, an
    error is counted too; when the analysis returns and the reply cannot be
    rendered, the answer is 500 and no error is counted.  Otherwise the
    answer is 200 with the payload of the analysis.  A reply that cannot be
    rendered is replaced by the error reply for the exception of the
    rendering, and the handler raises only when that error reply cannot be
    rendered either. *)
Theorem analyze_handler_answers :
  forall (env : Env) (perform_analysis : dict -> result dict)
         (request : HttpRequest) (w : World) (a : Agent),
    exists (out : result JSONResponse) (w' : World) (a' : Agent),
      CloudRunKiroAgent._analyze_handler env perform_analysis request (w, a)
      = (out, (w', a'))
      /\ (forall e : PyException,
            json request = Raise e ->
            a' = a /\ out = JSONResponse_new env (error_payload CloudRun e) 500)
      /\ (forall body : dict,
            json request = Ok body ->
            request_count a' = request_count a + 1
            /\ (forall e : PyException,
                  fst (KiroAgentInterface.analyze_data env perform_analysis body
                         (analysis_world w, a)) = Raise e ->
                  error_count a' = error_count a + 1
                  /\ (forall s : string,
                        json_dumps env (error_payload CloudRun e) = Ok s ->
                        out = Ok (mkJSONResponse (error_payload CloudRun e) 500))
                  /\ (forall e' : PyException,
                        json_dumps env (error_payload CloudRun e) = Raise e' ->
                        out = JSONResponse_new env (error_payload CloudRun e') 500))
            /\ (forall payload : dict,
                  fst (KiroAgentInterface.analyze_data env perform_analysis body
                         (analysis_world w, a)) = Ok payload ->
                  error_count a' = error_count a
                  /\ (forall s : string,
                        json_dumps env payload = Ok s ->
                        out = Ok (mkJSONResponse payload 200))
                  /\ (forall e : PyException,
                        json_dumps env payload = Raise e ->
                        out = JSONResponse_new env (error_payload CloudRun e) 500))).
Proof.
  intros env pa request w a.
  destruct (analyze_handler_cases env pa request w a)
    as (out & w' & a' & Hrun & Hcases).
  exists out, w', a'. split; [exact Hrun|]. split.
  - intros e He. rewrite He in Hcases. exact Hcases.
  - intros body Hb. rewrite Hb in Hcases. destruct Hcases as (Hrc & Hstep).
    split; [exact Hrc|]. split.
    + intros e He. apply analyze_data_raises in He. rewrite He in Hstep.
      destruct Hstep as (Hec & Hout). split; [exact Hec|]. split.
      * intros s Hd. rewrite Hd in Hout. exact Hout.
      * intros e' He'. rewrite He' in Hout. exact Hout.
    + intros payload Hp. apply analyze_data_returns in Hp.
      destruct Hp as (r & n & Hs & ->). cbn [fst snd]. rewrite Hs in Hstep.
      destruct Hstep as (Hec & Hout). split; [exact Hec|]. split.
      * intros s Hd. rewrite Hd in Hout. exact Hout.
      * intros e He. rewrite He in Hout. exact Hout.
Qed.

(** A reply that cannot be rendered: the analysis returns, the answer is
    500 and [error_count] stays at 0. *)
Example unrendered_reply_is_not_counted :
  exists (resp : JSONResponse) (w' : World) (a' : Agent),
    CloudRunKiroAgent._analyze_handler
      (mkEnv (utcnow_at sample_env) (uuid4_hex_at sample_env) (environ sample_env)
             (psutil sample_env) (isoformat sample_env) (float_str sample_env)
             (str_len sample_env) (py_int sample_env)
             (fun d => match dict_get "input_data" d with
                       | Some _ => Raise (ValueError
                           "Out of range float values are not JSON compliant")
                       | None => Ok "{...}"
                       end))
      KiroAgentInterface._perform_analysis
      (mkHttpRequest (Ok [("x", VInt 1)]) [] "POST" "/analyze" [])
      (World0, fresh_cloudrun) = (Ok resp, (w', a'))
    /\ status_code resp = 500
    /\ request_count a' = 1 /\ error_count a' = 0.
Proof. do 3 eexists. split; [vm_compute; reflexivity|]. repeat split. Qed.

(** X7.  [_metrics_handler] has no handler of its own around
    [get_metrics]: the [TypeError] of the [KiroMetrics] call leaves it, for
    every agent, and no response is built. *)
Theorem metrics_handler_raises :
  forall (env : Env) (w : World) (a : Agent),
    exists msg : string,
      CloudRunKiroAgent._metrics_handler env (w, a) = (Raise (TypeError msg), (w, a)).
Proof.
  intros env w a. destruct a as [c p rc ec rts lg pt].
  unfold CloudRunKiroAgent._metrics_handler. unfold_methods. cbn.
  destruct (psutil env) as [[rss cpu]|]; cbn; eexists; reflexivity.
Qed.

(** X8.  The Redis probe answers "healthy" when BEAST_MODE_ENABLED is
    set to "true" in any letter case and "disabled" in every other
    environment.  It never answers "unhealthy", never raises and changes
    nothing. *)
Theorem check_redis_answers :
  forall (env : Env) (h : Heap),
    exists answer : string,
      CloudRunKiroAgent._check_redis env h = (Ok answer, h)
      /\ answer <> "unhealthy"
      /\ (answer = "healthy"
          <-> exists v : string,
                environ env "BEAST_MODE_ENABLED" = Some v /\ lower v = "true")
      /\ (answer = "disabled"
          <-> ~ exists v : string,
                  environ env "BEAST_MODE_ENABLED" = Some v /\ lower v = "true").
Proof.
  intros env h. unfold CloudRunKiroAgent._check_redis, getenv, try_except, ret.
  destruct (environ env "BEAST_MODE_ENABLED") as [v|].
  - destruct (String.eqb_spec (lower v) "true") as [Hv | Hv]; cbn [negb].
    + exists "healthy". split; [reflexivity|]. split; [discriminate|]. split.
      * split; [intros _; exists v; split; [reflexivity | exact Hv] | reflexivity].
      * split; [discriminate|]. intros H. exfalso. apply H. exists v. auto.
    + exists "disabled". split; [reflexivity|]. split; [discriminate|]. split.
      * split; [discriminate|]. intros (v' & Heq & Hl). injection Heq as <-.
        contradiction.
      * split; [|reflexivity]. intros _ (v' & Heq & Hl). injection Heq as <-.
        contradiction.
  - exists "disabled". cbn. split; [reflexivity|]. split; [discriminate|]. split.
    + split; [discriminate|]. intros (v' & Heq & _). discriminate Heq.
    + split; [|reflexivity]. intros _ (v' & Heq & _). discriminate Heq.
Qed.

(** X9.  A health check is not a request: [health_check] leaves every
    attribute of the agent as it was, for each class, and the counts it
    reports are the current ones.  The Cloud Run body reads the clock once;
    the Cloud Functions body reads nothing from outside and reports no error
    count. *)
Theorem health_check_frame :
  forall (env : Env) (w : World) (a : Agent),
    exists (payload : dict) (w' : World),
      health_check env (w, a) = (Ok payload, (w', a))
      /\ log w' = log w
      /\ dict_get "request_count" payload = Some (VInt (request_count a))
      /\ match cls a with
         | CloudRun | GKE =>
             clock_reads w' = S (clock_reads w)
             /\ dict_get "error_count" payload = Some (VInt (error_count a))
         | CloudFunctions =>
             w' = w /\ dict_get "error_count" payload = None
         end.
Proof.
  intros env w a. destruct a as [c p rc ec rts lg pt].
  destruct c; unfold_methods; cbn;
    try (unfold CloudRunKiroAgent._check_redis;
         destruct (String.eqb (lower (getenv env "BEAST_MODE_ENABLED" "false")) "true");
         cbn);
    do 2 eexists; (split; [reflexivity|]); repeat split.
Qed.

(** * Identifiers, platform tables and utilities *)

Lemma append_cancel_l (s x y : string) : s ++ x = s ++ y -> x = y.
Proof.
  induction s as [|c s IH]; cbn; intros H.
  - exact H.
  - injection H as H. apply IH. exact H.
Qed.

(** X10.  When [analyze_data] returns on two payloads, the identifiers of
    two consecutive analyses of them on one agent differ exactly when the
    two uuids drawn differ within their first eight hexadecimal digits: the
    rest of each uuid plays no part. *)
Theorem analysis_ids_differ_iff :
  forall (env : Env) (perform_analysis : dict -> result dict)
         (d1 d2 : dict) (w : World) (a : Agent),
    is_ok (fst (KiroAgentInterface.analyze_data env perform_analysis d1 (w, a)))
    = true ->
    is_ok (fst (KiroAgentInterface.analyze_data env perform_analysis d2 (w, a)))
    = true ->
    exists (p1 p2 : dict) (h' : Heap),
      (x <- KiroAgentInterface.analyze_data env perform_analysis d1 ;;
       y <- KiroAgentInterface.analyze_data env perform_analysis d2 ;;
       ret (x, y)) (w, a) = (Ok (p1, p2), h')
      /\ (dict_get "analysis_id" p1 = dict_get "analysis_id" p2
          <-> str_take 8 (uuid4_hex_at env (uuid_draws w))
              = str_take 8 (uuid4_hex_at env (S (uuid_draws w)))).
Proof.
  intros env pa d1 d2 w a H1 H2.
  destruct (analyze_data_outcome env pa d1 w a) as (w1 & Hrun1 & _ & Hu1).
  rewrite Hrun1 in H1. cbn [fst] in H1.
  destruct (analysis_step env pa d1) as [[r1 n1] | e1]; [|discriminate H1].
  destruct (analyze_data_outcome env pa d2 w a) as (w0 & Hrun0 & _).
  rewrite Hrun0 in H2. cbn [fst] in H2.
  destruct (analyze_data_outcome env pa d2 w1 a) as (w2 & Hrun2 & _).
  destruct (analysis_step env pa d2) as [[r2 n2] | e2]; [|discriminate H2].
  do 3 eexists. split.
  - unfold bind at 1. rewrite Hrun1. unfold bind at 1. rewrite Hrun2. reflexivity.
  - unfold analysis_payload, analysis_id_in. rewrite Hu1.
    cbn [dict_get String.eqb Ascii.eqb Bool.eqb]. split.
    + set (x := str_take 8 (uuid4_hex_at env (uuid_draws w))).
      set (y := str_take 8 (uuid4_hex_at env (S (uuid_draws w)))).
      intros H.
      assert (Heq : "kiro_" ++ platform a ++ "_" ++ x
                    = "kiro_" ++ platform a ++ "_" ++ y) by congruence.
      apply append_cancel_l in Heq. apply append_cancel_l in Heq.
      apply append_cancel_l in Heq. exact Heq.
    + intros ->. reflexivity.
Qed.

Lemma analysis_ids_differ_iff_witness :
  exists (p1 p2 : dict) (h' : Heap),
    (x <- KiroAgentInterface.analyze_data sample_env picky_analysis
            [("x", VInt 1)] ;;
     y <- KiroAgentInterface.analyze_data sample_env picky_analysis [] ;;
     ret (x, y)) (World0, fresh_cloudrun) = (Ok (p1, p2), h')
    /\ (dict_get "analysis_id" p1 = dict_get "analysis_id" p2
        <-> str_take 8 (uuid4_hex_at sample_env (uuid_draws World0))
            = str_take 8 (uuid4_hex_at sample_env (S (uuid_draws World0)))).
Proof.
  apply (analysis_ids_differ_iff sample_env picky_analysis
           [("x", VInt 1)] [] World0 fresh_cloudrun); vm_compute; reflexivity.
Defined.

(** X11.  [get_platform_info] changes nothing and reports the platform
    attribute of the agent.  The platforms with lists of their own are the
    two that the factory offers, and both lists of constraints contain
    "stateless_only"; every other platform, "cloud_functions" among them,
    gets the lists ["basic_http"] and ["basic_constraints"]. *)
Theorem platform_info_by_platform :
  forall (w : World) (a : Agent),
    exists info : dict,
      KiroAgentInterface.get_platform_info (w, a) = (Ok info, (w, a))
      /\ dict_get "platform" info = Some (VStr (platform a))
      /\ dict_get "version" info = Some (VStr "1.0.0")
      /\ (KiroAgentFactory.validate_platform (platform a) = true ->
          exists capabilities constraints : list value,
            dict_get "capabilities" info = Some (VList capabilities)
            /\ dict_get "constraints" info = Some (VList constraints)
            /\ ~ In (VStr "basic_http") capabilities
            /\ In (VStr "stateless_only") constraints)
      /\ (KiroAgentFactory.validate_platform (platform a) = false ->
          dict_get "capabilities" info = Some (VList [VStr "basic_http"])
          /\ dict_get "constraints" info = Some (VList [VStr "basic_constraints"])).
Proof.
  intros w a. destruct a as [c p rc ec rts lg pt].
  unfold KiroAgentInterface.get_platform_info,
    KiroAgentInterface._get_platform_capabilities,
    KiroAgentInterface._get_platform_constraints,
    KiroAgentFactory.validate_platform, KiroAgentFactory.get_available_platforms,
    bind, self, ret.
  cbn -[String.eqb].
  destruct (String.eqb p "gke") eqn:Hg; [|destruct (String.eqb p "cloudrun") eqn:Hc];
    repeat (cbn -[String.eqb]; rewrite ?Hg, ?Hc); eexists; (split; [reflexivity|]);
    (split; [reflexivity|]); (split; [reflexivity|]); split;
    try (intros H; discriminate H).
  - intros _. do 2 eexists. split; [reflexivity|]. split; [reflexivity|].
    split; [|cbn; tauto].
    cbn. intros H. repeat (destruct H as [H | H]; [discriminate H|]). exact H.
  - intros _. do 2 eexists. split; [reflexivity|]. split; [reflexivity|].
    split; [|cbn; tauto].
    cbn. intros H. repeat (destruct H as [H | H]; [discriminate H|]). exact H.
  - intros _. split; reflexivity.
Qed.

(** * The stateless check *)

(** X12.  [validate_stateless_constraints] never raises and logs exactly
    one record, an error when it answers [False] and an info when it
    answers [True].  It answers [True] for "cloudrun" without running a
    command, [False] for every name other than "gke" and "cloudrun", and for
    "gke" it answers [True] exactly when both kubectl commands return and
    neither returns status 0 together with a non-blank output. *)
Theorem stateless_constraints_verdict :
  forall (sh : Shell) (p : string) (w : World),
    exists (b : bool) (rec : LogRecord),
      validate_stateless_constraints sh p w
      = (Ok b, mkWorld (clock_reads w) (uuid_draws w) (log w ++ [rec]))
      /\ log_name rec = KiroAgentInterface.module_name
      /\ log_level rec = (if b then INFO else ERROR)
      /\ (p = "cloudrun" -> b = true)
      /\ (p <> "gke" -> p <> "cloudrun" -> b = false)
      /\ (p = "gke" -> (b = true <-> gke_clean sh)).
Proof.
  intros sh p w. unfold validate_stateless_constraints, gke_clean.
  destruct (String.eqb_spec p "gke") as [-> | Hg].
  - unfold try_except, bind, lift, ret, models_log, log_to.
    destruct (subprocess_run sh (kubectl_get "pvc")) as [r1 | e1] eqn:H1;
      [destruct (lists_resources sh r1) eqn:L1;
       [| destruct (subprocess_run sh (kubectl_get "statefulset")) as [r2 | e2] eqn:H2;
          [destruct (lists_resources sh r2) eqn:L2|]]|];
      (do 2 eexists; split; [reflexivity|]); split_conj;
      try reflexivity; try discriminate; try (intros; congruence);
      intros _; split; try discriminate; try reflexivity.
    + intros (x1 & x2 & E1 & E2 & _). congruence.
    + intros (x1 & x2 & _ & _ & E3 & E4). congruence.
    + intros _. exists r1, r2. auto.
    + intros (x1 & x2 & _ & _ & E3 & _). discriminate E3.
    + intros (x1 & x2 & E1 & _). discriminate E1.
  - destruct (String.eqb_spec p "cloudrun") as [-> | Hc];
      (do 2 eexists; split; [reflexivity|]); split_conj;
      try reflexivity; try discriminate; try (intros; congruence).
Qed.

(** X13.  For "gke" a kubectl that exits with a status other than 0 is
    no objection: when both commands return such a status the check
    answers [True], whatever they print.  A command that cannot be run at
    all, so that [subprocess.run] raises, makes the check answer [False]. *)
Theorem stateless_constraints_exit_status :
  forall (sh : Shell) (w : World),
    (forall r1 r2 : CompletedProcess,
       subprocess_run sh (kubectl_get "pvc") = Ok r1 ->
       subprocess_run sh (kubectl_get "statefulset") = Ok r2 ->
       returncode r1 <> 0 -> returncode r2 <> 0 ->
       fst (validate_stateless_constraints sh "gke" w) = Ok true)
    /\ (forall e : PyException,
          subprocess_run sh (kubectl_get "pvc") = Raise e ->
          fst (validate_stateless_constraints sh "gke" w) = Ok false)
    /\ (forall (r1 : CompletedProcess) (e : PyException),
          subprocess_run sh (kubectl_get "pvc") = Ok r1 ->
          lists_resources sh r1 = false ->
          subprocess_run sh (kubectl_get "statefulset") = Raise e ->
          fst (validate_stateless_constraints sh "gke" w) = Ok false).
Proof.
  intros sh w. unfold validate_stateless_constraints.
  cbn [String.eqb Ascii.eqb Bool.eqb].
  unfold try_except, bind, lift, ret, models_log, log_to. split_conj.
  - intros r1 r2 H1 H2 Hr1 Hr2. rewrite H1.
    assert (L1 : lists_resources sh r1 = false).
    { unfold lists_resources. apply Z.eqb_neq in Hr1. rewrite Hr1. reflexivity. }
    assert (L2 : lists_resources sh r2 = false).
    { unfold lists_resources. apply Z.eqb_neq in Hr2. rewrite Hr2. reflexivity. }
    rewrite L1, H2, L2. reflexivity.
  - intros e H1. rewrite H1. reflexivity.
  - intros r1 e H1 L1 H2. rewrite H1, L1, H2. reflexivity.
Qed.

(** A cluster that kubectl cannot reach: both commands exit with status 1
    and print nothing.  The check answers [True]. *)
Example unreachable_cluster_passes :
  fst (validate_stateless_constraints
         (mkShell (fun _ => Ok (mkCompletedProcess 1 "")) (fun s => s))
         "gke" World0) = Ok true.
Proof. reflexivity. Qed.

(** * Sequences of requests and factory agents *)

Lemma process_request_frame (env : Env) (perform_analysis : dict -> result dict)
    (h0 : Heap) (req : KiroRequest.t) (w : World) (a : Agent) :
  exists (resp : KiroResponse.t) (w' : World) (a' : Agent),
    process_request env perform_analysis req (w, a) = (Ok resp, (w', a'))
    /\ cls a' = cls a /\ platform a' = platform a
    /\ logger a' = logger a /\ port a' = port a
    /\ KiroResponse.status_code resp = expected_status env perform_analysis h0 req
    /\ (clock_reads w <= clock_reads w')%nat
    /\ uuid_draws w' = S (uuid_draws w).
Proof.
  unfold expected_status. rewrite analysis_returns_step. unfold analysis_step.
  destruct a as [c p rc ec rts lg pt].
  destruct c; unfold_methods; cbn -[String.append Z.add Z.sub];
    (destruct (perform_analysis (KiroRequest.data req)) as [r | e];
     cbn -[String.append Z.add Z.sub];
     [destruct (str_len env (KiroRequest.data req)) as [n | e];
      cbn -[String.append Z.add Z.sub] |]);
    (do 3 eexists; split; [reflexivity|]); cbn; split_conj;
    try reflexivity; lia.
Qed.

(** X15.  Handling requests changes the two counters and the samples and
    nothing else of the agent: class, platform, logger and port are after
    any sequence of requests what the constructor made them.  Each request
    draws exactly one uuid, analysed or not. *)
Theorem process_requests_frame :
  forall (env : Env) (perform_analysis : dict -> result dict)
         (requests : list KiroRequest.t) (w : World) (a : Agent),
    exists (resps : list KiroResponse.t) (w' : World) (a' : Agent),
      process_requests env perform_analysis requests (w, a) = (Ok resps, (w', a'))
      /\ cls a' = cls a /\ platform a' = platform a
      /\ logger a' = logger a /\ port a' = port a
      /\ uuid_draws w' = (uuid_draws w + length requests)%nat.
Proof.
  intros env pa requests. induction requests as [|r rest IH]; intros w a.
  - exists [], w, a. cbn. split_conj; try reflexivity. lia.
  - destruct (process_request_frame env pa (w, a) r w a)
      as (resp & w1 & a1 & Hrun & Hc & Hp & Hl & Hpt & _ & _ & Hu).
    destruct (IH w1 a1) as (resps & w2 & a2 & Hrest & Hc2 & Hp2 & Hl2 & Hpt2 & Hu2).
    exists (resp :: resps), w2, a2. split.
    { cbn [process_requests]. unfold bind at 1. rewrite Hrun.
      unfold bind at 1. rewrite Hrest. reflexivity. }
    split_conj; try congruence. cbn [length]. lia.
Qed.

Lemma process_requests_statuses_aux (env : Env)
    (perform_analysis : dict -> result dict) (h0 : Heap)
    (requests : list KiroRequest.t) :
  forall (w : World) (a : Agent),
    exists (resps : list KiroResponse.t) (h' : Heap),
      process_requests env perform_analysis requests (w, a) = (Ok resps, h')
      /\ map KiroResponse.status_code resps
         = map (expected_status env perform_analysis h0) requests.
Proof.
  induction requests as [|r rest IH]; intros w a.
  - exists [], (w, a). split; reflexivity.
  - destruct (process_request_frame env perform_analysis h0 r w a)
      as (resp & w1 & a1 & Hrun & _ & _ & _ & _ & Hst & _).
    destruct (IH w1 a1) as (resps & h2 & Hrest & Hmap).
    exists (resp :: resps), h2. split.
    + cbn [process_requests]. unfold bind at 1. rewrite Hrun.
      unfold bind at 1. rewrite Hrest. reflexivity.
    + cbn [map]. rewrite Hst, Hmap. reflexivity.
Qed.

(** X16.  The responses come in the order of the requests, one each: the
    response to a request has status 200 when [analyze_data] returns on its
    data and 500 when it raises, whatever happened to the requests before
    it. *)
Theorem process_requests_statuses :
  forall (env : Env) (perform_analysis : dict -> result dict)
         (requests : list KiroRequest.t) (w : World) (a : Agent),
    exists (resps : list KiroResponse.t) (h' : Heap),
      process_requests env perform_analysis requests (w, a) = (Ok resps, h')
      /\ map KiroResponse.status_code resps
         = map (expected_status env perform_analysis (w, a)) requests.
Proof.
  intros env pa requests w a.
  exact (process_requests_statuses_aux env pa (w, a) requests w a).
Qed.

(** The statuses of four requests: analysed, rejected by the routine,
    refused by [str], analysed. *)
Example process_requests_statuses_sample :
  map (expected_status sample_env picky_analysis (World0, fresh_cloudrun))
      [good_request; bad_request; huge_request; empty_request]
  = [200; 500; 500; 200].
Proof. vm_compute. reflexivity. Qed.

(** The entries of [get_platform_info] for a platform of the factory. *)
Lemma platform_info_lists (w : World) (a : Agent) :
  exists info : dict,
    KiroAgentInterface.get_platform_info (w, a) = (Ok info, (w, a))
    /\ dict_get "platform" info = Some (VStr (platform a))
    /\ (KiroAgentFactory.validate_platform (platform a) = true ->
        exists capabilities constraints : list value,
          dict_get "capabilities" info = Some (VList capabilities)
          /\ dict_get "constraints" info = Some (VList constraints)
          /\ ~ In (VStr "basic_http") capabilities
          /\ In (VStr "stateless_only") constraints).
Proof.
  destruct a as [c p rc ec rts lg pt].
  unfold KiroAgentInterface.get_platform_info,
    KiroAgentInterface._get_platform_capabilities,
    KiroAgentInterface._get_platform_constraints,
    KiroAgentFactory.validate_platform, KiroAgentFactory.get_available_platforms,
    bind, self, ret.
  cbn -[String.eqb].
  destruct (String.eqb p "gke") eqn:Hg; [|destruct (String.eqb p "cloudrun") eqn:Hc];
    repeat (cbn -[String.eqb]; rewrite ?Hg, ?Hc); eexists;
    (split; [reflexivity|]); (split; [reflexivity|]);
    try (intros H; discriminate H);
    (intros _; do 2 eexists; split; [reflexivity|]; split; [reflexivity|];
     split; [|cbn; tauto];
     cbn; intros H; repeat (destruct H as [H | H]; [discriminate H|]); exact H).
Qed.

(** X17.  An agent that the factory returns for a name describes itself
    under that name: [get_platform_info] reports the requested platform and
    the lists of that platform, which are not the basic ones and include
    the constraint "stateless_only". *)
Theorem factory_agent_platform_info :
  forall (env : Env) (p : string) (w w' : World) (a : Agent),
    KiroAgentFactory.create_agent env p w = (Ok a, w') ->
    exists (info : dict) (capabilities constraints : list value),
      KiroAgentInterface.get_platform_info (w', a) = (Ok info, (w', a))
      /\ dict_get "platform" info = Some (VStr p)
      /\ dict_get "capabilities" info = Some (VList capabilities)
      /\ dict_get "constraints" info = Some (VList constraints)
      /\ ~ In (VStr "basic_http") capabilities
      /\ In (VStr "stateless_only") constraints.
Proof.
  intros env p w w' a Hrun.
  assert (Hp : platform a = p /\ KiroAgentFactory.validate_platform p = true).
  { destruct (str_in p KiroAgentFactory.get_available_platforms) eqn:Hin.
    - pose proof (create_agent_known env p w (proj1 (str_in_In _ _) Hin)) as Hk.
      destruct (py_int env (getenv env "PORT" "8080")) as [n | e].
      + destruct Hk as (a0 & w0 & Hrun0 & Hpl & _).
        rewrite Hrun in Hrun0. injection Hrun0 as -> ->. split; [exact Hpl | exact Hin].
      + rewrite Hrun in Hk. discriminate Hk.
    - apply str_in_not_In in Hin.
      rewrite (create_agent_unknown env p w Hin) in Hrun. discriminate Hrun. }
  destruct Hp as (Hpl & Hv).
  destruct (platform_info_lists w' a) as (info & Hinfo & Hplat & Hknown).
  rewrite Hpl in Hknown, Hplat.
  destruct (Hknown Hv) as (caps & cons & Hcaps & Hcons & Hnb & Hst).
  exists info, caps, cons. split_conj; assumption.
Qed.

Lemma factory_agent_platform_info_witness :
  exists (info : dict) (capabilities constraints : list value),
    KiroAgentInterface.get_platform_info
      (snd (KiroAgentFactory.create_agent sample_env "gke" World0), fresh_gke)
    = (Ok info, (snd (KiroAgentFactory.create_agent sample_env "gke" World0), fresh_gke))
    /\ dict_get "platform" info = Some (VStr "gke")
    /\ dict_get "capabilities" info = Some (VList capabilities)
    /\ dict_get "constraints" info = Some (VList constraints)
    /\ ~ In (VStr "basic_http") capabilities
    /\ In (VStr "stateless_only") constraints.
Proof.
  apply (factory_agent_platform_info sample_env "gke" World0).
  vm_compute. reflexivity.
Defined.
